(** * Nigeria tax calculator ([newtax.py]): bracket engine, PIT, CIT, comparator

    Shallow embedding of the computational core of [newtax.py] and the
    properties its specification states about it.

    Numbers.  The program computes on Python floats.  They are modelled as
    exact rationals [Q]: every arithmetic operation, comparison, [min] and
    [max] of the source is the operation of the same name on [Q], rounding is
    not modelled, and equalities between results are stated with [==].  The
    one non-finite value of the source, [float('inf')] as the upper bound of a
    last bracket, is the constructor [PInf] of [bound].  The numbers of a
    request are the finite numbers within the range of a double: a JSON
    integer beyond that range, on which [float] raises [OverflowError], and
    the non-finite values are outside the model.  What is stated below about
    orders, signs, thresholds and the branch taken is kept by rounding;
    identities between sums, differences and quotients are stated only where
    the specification states them.

    Requests.  The JSON object of a request is a [gmap string pyval].
    [float(...)] may raise, so the calculators return in the error monad
    [result]; Python's reading of a string as a number is a parameter of the
    calculators. *)

From Stdlib Require Import QArith Qminmax Lqa.
From stdpp Require Import gmap strings list fin_maps.

Open Scope Q_scope.

(** ** Bracket tables *)

(** An upper bound of a bracket: a finite number or [float('inf')]. *)
Inductive bound : Type :=
| Fin (q : Q)
| PInf.

Definition bracket : Type := (bound * Q)%type.

(** [amount <= prev], with [prev] a bound. *)
Definition le_bound (amount : Q) (prev : bound) : bool :=
  match prev with
  | Fin p => Qle_bool amount p
  | PInf => true
  end.

(** [min(amount, limit)], with [limit] a bound. *)
Definition min_bound (amount : Q) (limit : bound) : Q :=
  match limit with
  | Fin l => Qmin amount l
  | PInf => amount
  end.

Definition PIT_BRACKETS_NEW : list bracket :=
  [ (Fin 800000, 0);
    (Fin 3200000, 15 # 100);
    (Fin 7200000, 25 # 100);
    (Fin 12200000, 30 # 100);
    (Fin 22200000, 35 # 100);
    (PInf, 40 # 100) ].

Definition PIT_BRACKETS_OLD : list bracket :=
  [ (Fin 300000, 7 # 100);
    (Fin 600000, 11 # 100);
    (Fin 1100000, 15 # 100);
    (Fin 1600000, 19 # 100);
    (Fin 3200000, 21 # 100);
    (PInf, 24 # 100) ].

Definition CGT_RATE_NEW : Q := 10 # 100.
Definition CGT_RATE_OLD : Q := 5 # 100.
Definition HOUSING_ALLOWANCE_CAP : Q := 500000.

(** ** Bracket engine *)

(** The [for limit, rate in brackets] loop of [calculate_progressive_tax],
    started in the state [(tax, prev)].  The loop leaves ([break]) as soon as
    [amount <= prev]; [prev] is then the bound of the bracket before, so it is
    finite whenever a portion is computed. *)
Fixpoint progressive_loop (amount tax : Q) (prev : bound)
    (brackets : list bracket) : Q :=
  match brackets with
  | [] => tax
  | (limit, rate) :: rest =>
      if le_bound amount prev then tax
      else
        match prev with
        | Fin p =>
            let portion := min_bound amount limit - p in
            progressive_loop amount (tax + portion * rate) limit rest
        | PInf => tax
        end
  end.

Definition calculate_progressive_tax (amount : Q) (brackets : list bracket) : Q :=
  progressive_loop amount 0 (Fin 0) brackets.

(** ** Request data and numeric conversion *)

(** A value of the request's JSON object as Python sees it: a (finite)
    number, a string, a boolean, [None], and arrays and objects, whose
    content no operation of the program looks at. *)
Inductive pyval : Type :=
| PyNum (q : Q)
| PyStr (s : string)
| PyBool (b : bool)
| PyNone
| PyList
| PyDict.

(** The exceptions [float(...)] raises. *)
Inductive pyerr : Type :=
| TypeError
| ValueError.

Inductive result (A : Type) : Type :=
| Ok (a : A)
| Err (e : pyerr).

Arguments Ok {A} a.
Arguments Err {A} e.

#[global] Instance result_ret : MRet result := fun _ a => Ok a.
#[global] Instance result_bind : MBind result := fun _ _ f m =>
  match m with
  | Ok a => f a
  | Err e => Err e
  end.

Module Pit.
(** The dict returned by [calculate_pit]. *)
Record result : Type := mk {
  law : string;
  gross_income : Q;
  cra : Q;
  taxable_income : Q;
  annual_paye : Q;
  monthly_paye : Q;
  capital_gains_tax : Q;
  total_tax : Q;
  net_income : Q;
  monthly_take_home : Q;
  housing_allowance_capped : Q;
  housing_raw : Q;
  first_tax_free : Q
}.
End Pit.

Module Cit.
(** The dict returned by [calculate_cit]. *)
Record result : Type := mk {
  law : string;
  company_size : string;
  turnover : Q;
  profit : Q;
  cit_rate : Q;
  cit_payable : Q;
  net_profit : Q;
  monthly_net_profit : Q
}.
End Cit.

Module PitComparison.
(** The ["comparison"] object of a PIT response. *)
Record t : Type := mk {
  tax_difference : Q;
  net_income_difference : Q;
  monthly_take_home_difference : Q;
  recommendation : string
}.
End PitComparison.

Module CitComparison.
(** The ["comparison"] object of a CIT response. *)
Record t : Type := mk {
  tax_difference : Q;
  net_profit_difference : Q;
  monthly_profit_difference : Q;
  recommendation : string
}.
End CitComparison.

(** The JSON body [calculate] answers with: [old], [new] and [comparison]. *)
Inductive response : Type :=
| PitResponse (old new : Pit.result) (comparison : PitComparison.t)
| CitResponse (old new : Cit.result) (comparison : CitComparison.t).

(** [x > y] on numbers. *)
Definition Qgt_bool (x y : Q) : bool := negb (Qle_bool x y).

(** [v == s] for a value [v] and a string literal [s]: only the string [s]
    itself is equal to it. *)
Definition py_eq_str (v : pyval) (s : string) : bool :=
  match v with
  | PyStr s' => bool_decide (s' = s)
  | _ => false
  end.

Section Calculator.

(** Python's [float] on a string: the number it denotes, or [None] where
    [float] raises [ValueError].  Python's own parser is not part of the
    program; the calculators are defined for any such function. *)
Variable str_to_float : string -> option Q.

(** [float(v)], for a number [v] within the range of a double. *)
Definition py_float (v : pyval) : result Q :=
  match v with
  | PyNum q => Ok q
  | PyStr s =>
      match str_to_float s with
      | Some q => Ok q
      | None => Err ValueError
      end
  | PyBool b => Ok (if b then 1 else 0)
  | PyNone | PyList | PyDict => Err TypeError
  end.

(** [float(data.get(key, 0))] *)
Definition get_float (data : gmap string pyval) (key : string) : result Q :=
  py_float (default (PyNum 0) (data !! key)).

(** ** PIT logic *)
Definition calculate_pit (data : gmap string pyval) (use_old_law : bool)
    : result Pit.result :=
  basic ← get_float data "basic_salary";
  housing_raw ← get_float data "housing_allowance";
  let housing :=
    if use_old_law then housing_raw
    else Qmin housing_raw HOUSING_ALLOWANCE_CAP in
  transport ← get_float data "transport_allowance";
  others ← get_float data "other_allowances";
  pension ← get_float data "pension";
  nhf ← get_float data "nhf";
  life ← get_float data "life_insurance";
  capital_gains ← get_float data "capital_gains";
  digital_assets ← get_float data "digital_assets";
  let gross := basic + housing + transport + others in
  let '(cra, cgt_rate, brackets, law_label, first_tax_free) :=
    if use_old_law
    then ((1 # 100) * gross + 200000, CGT_RATE_OLD, PIT_BRACKETS_OLD, "OLD", 0)
    else ((20 # 100) * gross + 200000, CGT_RATE_NEW, PIT_BRACKETS_NEW, "NEW", 800000) in
  let deductions := pension + nhf + life in
  let taxable_income := Qmax 0 (gross - cra - deductions) in
  let annual_paye := calculate_progressive_tax taxable_income brackets in
  let monthly_paye := annual_paye / 12 in
  let cgt := (capital_gains + digital_assets) * cgt_rate in
  let total_tax := annual_paye + cgt in
  let net_income := gross + capital_gains + digital_assets - total_tax in
  let monthly_take_home := net_income / 12 in
  mret {|
    Pit.law := law_label;
    Pit.gross_income := gross;
    Pit.cra := cra;
    Pit.taxable_income := taxable_income;
    Pit.annual_paye := annual_paye;
    Pit.monthly_paye := monthly_paye;
    Pit.capital_gains_tax := cgt;
    Pit.total_tax := total_tax;
    Pit.net_income := net_income;
    Pit.monthly_take_home := monthly_take_home;
    Pit.housing_allowance_capped := housing;
    Pit.housing_raw := housing_raw;
    Pit.first_tax_free := first_tax_free
  |}.

(** ** CIT logic *)
Definition calculate_cit (data : gmap string pyval) (use_old_law : bool)
    : result Cit.result :=
  turnover ← get_float data "turnover";
  profit ← get_float data "profit";
  let '(rate, company_size, law_label) :=
    if use_old_law then
      if Qle_bool turnover 25000000 then (0, "Small Company", "OLD")
      else if Qle_bool turnover 100000000 then (20 # 100, "Medium Company", "OLD")
      else (30 # 100, "Large Company", "OLD")
    else
      if Qle_bool turnover 50000000 then (0, "Small Company", "NEW")
      else if Qle_bool turnover 150000000 then (18 # 100, "Medium Company", "NEW")
      else (25 # 100, "Large Company", "NEW") in
  let cit := profit * rate in
  let net_profit := profit - cit in
  let monthly_net_profit := net_profit / 12 in
  mret {|
    Cit.law := law_label;
    Cit.company_size := company_size;
    Cit.turnover := turnover;
    Cit.profit := profit;
    Cit.cit_rate := rate * 100;
    Cit.cit_payable := cit;
    Cit.net_profit := net_profit;
    Cit.monthly_net_profit := monthly_net_profit
  |}.

(** ** The [/calculate] route *)

(** The handler, as a function of the request's JSON object [data];
    [data.get("tax_type")] is [None] when the key is absent.  An exception
    of a calculator leaves the handler: the request then has no JSON
    answer. *)
Definition calculate (data : gmap string pyval) : result response :=
  let tax_type := default PyNone (data !! "tax_type") in
  if py_eq_str tax_type "PIT" then
    old_result ← calculate_pit data true;
    new_result ← calculate_pit data false;
    let tax_diff := Pit.total_tax new_result - Pit.total_tax old_result in
    let net_diff := Pit.net_income new_result - Pit.net_income old_result in
    let monthly_diff :=
      Pit.monthly_take_home new_result - Pit.monthly_take_home old_result in
    let recommendation :=
      if Qgt_bool net_diff 0 then "Better under NEW law"
      else "Better under OLD law" in
    mret (PitResponse old_result new_result {|
      PitComparison.tax_difference := tax_diff;
      PitComparison.net_income_difference := net_diff;
      PitComparison.monthly_take_home_difference := monthly_diff;
      PitComparison.recommendation := recommendation
    |})
  else
    old_result ← calculate_cit data true;
    new_result ← calculate_cit data false;
    let tax_diff := Cit.cit_payable new_result - Cit.cit_payable old_result in
    let net_diff := Cit.net_profit new_result - Cit.net_profit old_result in
    let monthly_diff :=
      Cit.monthly_net_profit new_result - Cit.monthly_net_profit old_result in
    let recommendation :=
      if Qgt_bool net_diff 0 then "Better under NEW law"
      else "Better under OLD law" in
    mret (CitResponse old_result new_result {|
      CitComparison.tax_difference := tax_diff;
      CitComparison.net_profit_difference := net_diff;
      CitComparison.monthly_profit_difference := monthly_diff;
      CitComparison.recommendation := recommendation
    |}).

End Calculator.

(** ** Valid bracket tables and the specification's reading of the engine *)

(** [a < b] on bounds. *)
Definition lt_bound (a b : bound) : bool :=
  match a, b with
  | Fin x, Fin y => Qgt_bool y x
  | Fin _, PInf => true
  | PInf, _ => false
  end.

(** Upper bounds strictly increasing, the first one above [prev]. *)
Fixpoint increasing (prev : bound) (table : list bracket) : bool :=
  match table with
  | [] => true
  | (limit, _) :: rest => lt_bound prev limit && increasing limit rest
  end.

Definition rate_in_unit (br : bracket) : bool :=
  Qle_bool 0 (snd br) && Qle_bool (snd br) 1.

Definition last_unbounded (table : list bracket) : bool :=
  match last table with
  | Some (PInf, _) => true
  | _ => false
  end.

(** A valid bracket table: strictly increasing upper bounds, the last one
    unbounded, every rate in [[0,1]].  The slice of the first bracket runs
    from the previous bound 0 to its own bound, so that bound is not below 0. *)
Definition valid_table (table : list bracket) : bool :=
  match table with
  | [] => false
  | (limit, _) :: rest =>
      le_bound 0 limit && increasing limit rest
      && last_unbounded table && forallb rate_in_unit table
  end.

(** The specification's taxable slice of a bracket,
    [min(amount, upperBound) - previousBound], written out on its own: it
    shares nothing with the loop above. *)
Definition slice (amount previousBound : Q) (upperBound : bound) : Q :=
  match upperBound with
  | Fin u => Qmin amount u - previousBound
  | PInf => amount - previousBound
  end.

(** The specification's algorithm, as a relation between the state
    [(previousBound, tax)] before the brackets [table] and the result: stop
    when the table is exhausted or [amount <= previousBound]; otherwise
    accumulate [slice * rate] and advance [previousBound] to
    [upperBound]. *)
Inductive iterates (amount : Q) : bound -> Q -> list bracket -> Q -> Prop :=
| iterates_end previousBound tax :
    iterates amount previousBound tax [] tax
| iterates_stop previousBound tax table :
    le_bound amount previousBound = true ->
    iterates amount previousBound tax table tax
| iterates_slice previousBound tax upperBound rate rest res :
    le_bound amount (Fin previousBound) = false ->
    iterates amount upperBound
      (tax + slice amount previousBound upperBound * rate) rest res ->
    iterates amount (Fin previousBound) tax ((upperBound, rate) :: rest) res.

(** The specification's closed form: the sum, across all brackets whose
    slice is positive, of [slice * rate]. *)
Fixpoint positive_slices (amount : Q) (previousBound : bound)
    (table : list bracket) : Q :=
  match table with
  | [] => 0
  | (upperBound, rate) :: rest =>
      let width :=
        match previousBound with
        | Fin p => slice amount p upperBound
        | PInf => 0
        end in
      (if Qgt_bool width 0 then width * rate else 0)
      + positive_slices amount upperBound rest
  end.

(** A bracket with a finite upper bound. *)
Definition fin_bracket (br : Q * Q) : bracket := (Fin (fst br), snd br).

(** The last finite bound of the finite brackets [front], 0 when there is
    none. *)
Definition last_finite_bound (front : list (Q * Q)) : Q :=
  match last front with
  | Some (b, _) => b
  | None => 0
  end.

(** Bounds in ascending order, not necessarily strictly, the first one not
    below [prev]: what the proofs below use of the order of a valid table. *)
Definition le_bounds (a b : bound) : Prop :=
  match a, b with
  | Fin x, Fin y => x <= y
  | _, PInf => True
  | PInf, Fin _ => False
  end.

Fixpoint ascending (prev : bound) (table : list bracket) : Prop :=
  match table with
  | [] => True
  | (limit, _) :: rest => le_bounds prev limit /\ ascending limit rest
  end.

(** ** Requests with numeric fields and sample requests *)

Definition pit_fields : list string :=
  [ "basic_salary"; "housing_allowance"; "transport_allowance";
    "other_allowances"; "pension"; "nhf"; "life_insurance";
    "capital_gains"; "digital_assets" ].

Definition cit_fields : list string := [ "turnover"; "profit" ].

(** The field [key] of the request is a number, or absent. *)
Definition number_or_absent (data : gmap string pyval) (key : string) : bool :=
  match data !! key with
  | None | Some (PyNum _) => true
  | Some _ => false
  end.

Definition numeric_fields (keys : list string) (data : gmap string pyval) : bool :=
  forallb (number_or_absent data) keys.

(** The number in field [key], 0 when the field is absent. *)
Definition num (data : gmap string pyval) (key : string) : Q :=
  match data !! key with
  | Some (PyNum q) => q
  | _ => 0
  end.

(** The recommendation of both branches of [calculate], as a function of the
    net difference. *)
Definition recommend (net_diff : Q) : string :=
  if Qgt_bool net_diff 0 then "Better under NEW law" else "Better under OLD law".

(** Two requests that differ at most in their capital gains and digital-asset
    gains. *)
Definition same_but_gains (data data' : gmap string pyval) : Prop :=
  forall key,
    key <> "capital_gains" -> key <> "digital_assets" ->
    data' !! key = data !! key.

(** The PIT example of the specification: basic salary 1,000,000 and housing
    allowance 600,000, everything else absent. *)
Definition pit_example : gmap string pyval :=
  {[ "tax_type" := PyStr "PIT";
     "basic_salary" := PyNum 1000000;
     "housing_allowance" := PyNum 600000 ]}.

(** A [float] that reads no string as a number.  The sample requests below
    hold no string in a numeric field, so the choice does not matter for
    them. *)
Definition no_string_number : string -> option Q := fun _ => None.

(** A salary of 2,000,000 with gains of 200,000 and 50,000. *)
Definition pit_gains_example : gmap string pyval :=
  {[ "basic_salary" := PyNum 2000000;
     "capital_gains" := PyNum 200000;
     "digital_assets" := PyNum 50000 ]}.

(** The CIT example of the specification. *)
Definition cit_example : gmap string pyval :=
  {[ "tax_type" := PyStr "CIT";
     "turnover" := PyNum 80000000;
     "profit" := PyNum 10000000 ]}.

(** A turnover exactly at the OLD boundary between Small and Medium. *)
Definition cit_boundary_example : gmap string pyval :=
  {[ "turnover" := PyNum 25000000; "profit" := PyNum 4000000 ]}.

(** A small company with a loss. *)
Definition cit_loss_example : gmap string pyval :=
  {[ "turnover" := PyNum 10000000; "profit" := PyNum (-100) ]}.

(** A company of the Medium tier with a loss. *)
Definition cit_loss_medium_example : gmap string pyval :=
  {[ "turnover" := PyNum 80000000; "profit" := PyNum (-100) ]}.

(** A request whose tax type is neither PIT nor CIT. *)
Definition vat_example : gmap string pyval :=
  {[ "tax_type" := PyStr "VAT";
     "turnover" := PyNum 80000000;
     "profit" := PyNum 10000000 ]}.

(** ** The page's script *)

(** [getColorClass(value)] of the page: the style class of a difference. *)
Definition getColorClass (value : Q) : string :=
  if Qgt_bool value 0 then "savings"
  else if Qgt_bool 0 value then "increase"
  else "".

(** The style class the page gives the recommendation:
    [net_difference > 0 ? 'savings' : 'increase'], the same expression for
    the PIT and the CIT summary. *)
Definition recommendation_class (net_difference : Q) : string :=
  if Qgt_bool net_difference 0 then "savings" else "increase".

(** [value || 0] for the string [value] of an input of the form, as it
    reaches the handler: the number 0 for the empty string, the only falsy
    string, and the string itself otherwise. *)
Definition or_zero (value : string) : pyval :=
  if decide (value = "") then PyNum 0 else PyStr value.

(** The payload [calculateTax] posts, as the handler receives it;
    [value id] is [document.getElementById(id).value]. *)
Definition payload (currentTaxType : string) (value : string -> string)
    : gmap string pyval :=
  if decide (currentTaxType = "PIT") then
    {[ "tax_type" := PyStr "PIT";
       "basic_salary" := or_zero (value "basic_salary");
       "housing_allowance" := or_zero (value "housing_allowance");
       "transport_allowance" := or_zero (value "transport_allowance");
       "other_allowances" := or_zero (value "other_allowances");
       "pension" := or_zero (value "pension");
       "nhf" := or_zero (value "nhf");
       "life_insurance" := or_zero (value "life_insurance");
       "capital_gains" := or_zero (value "capital_gains");
       "digital_assets" := or_zero (value "digital_assets") ]}
  else
    {[ "tax_type" := PyStr "CIT";
       "turnover" := or_zero (value "turnover");
       "profit" := or_zero (value "profit") ]}.

(** ** Requests whose fields convert *)

(** Every field of [keys] converts: [float(data.get(key, 0))] raises for
    none of them. *)
Definition readable (str_to_float : string -> option Q) (keys : list string)
    (data : gmap string pyval) : bool :=
  forallb (fun key =>
             match get_float str_to_float data key with
             | Ok _ => true
             | Err _ => false
             end) keys.

(** Every field of [keys] converts to a number that is not negative. *)
Definition nonnegative (str_to_float : string -> option Q) (keys : list string)
    (data : gmap string pyval) : bool :=
  forallb (fun key =>
             match get_float str_to_float data key with
             | Ok q => Qle_bool 0 q
             | Err _ => false
             end) keys.

(** The number field [key] converts to, 0 when it does not convert. *)
Definition field (str_to_float : string -> option Q)
    (data : gmap string pyval) (key : string) : Q :=
  match get_float str_to_float data key with
  | Ok q => q
  | Err _ => 0
  end.

(** The tax of finite brackets that lie wholly below the amount: each one is
    taxed on its full width, from the bound before it ([prev] for the first)
    to its own. *)
Fixpoint full_brackets (prev : Q) (front : list (Q * Q)) : Q :=
  match front with
  | [] => 0
  | (b, rate) :: rest => (b - prev) * rate + full_brackets b rest
  end.

(** A decimal reader for the sample requests: it knows two strings. *)
Definition sample_float (s : string) : option Q :=
  if decide (s = "1000000") then Some 1000000
  else if decide (s = "600000") then Some 600000
  else None.

(** The PIT example of the specification as the page posts it. *)
Definition pit_form (id : string) : string :=
  if decide (id = "basic_salary") then "1000000"
  else if decide (id = "housing_allowance") then "600000"
  else "".

(** * Properties *)

(** ** Comparisons on numbers and bounds *)

Lemma Qgt_bool_true (x y : Q) : Qgt_bool x y = true <-> y < x.
Proof.
  unfold Qgt_bool. rewrite negb_true_iff, <- not_true_iff_false, Qle_bool_iff.
  split; [apply Qnot_le_lt | apply Qlt_not_le].
Qed.

Lemma Qgt_bool_false (x y : Q) : Qgt_bool x y = false <-> x <= y.
Proof.
  unfold Qgt_bool. rewrite negb_false_iff. apply Qle_bool_iff.
Qed.

Lemma Qle_bool_false (x y : Q) : Qle_bool x y = false <-> y < x.
Proof.
  rewrite <- not_true_iff_false, Qle_bool_iff.
  split; [apply Qnot_le_lt | apply Qlt_not_le].
Qed.

(** Turns the boolean comparisons of the context into inequalities;
    [split_min] and [split_max] split on which argument a [Qmin] or [Qmax]
    returns. *)
Ltac bool_to_Q :=
  repeat match goal with
  | H : Qle_bool _ _ = true |- _ => apply Qle_bool_iff in H
  | H : Qle_bool _ _ = false |- _ => apply Qle_bool_false in H
  | H : Qgt_bool _ _ = true |- _ => apply Qgt_bool_true in H
  | H : Qgt_bool _ _ = false |- _ => apply Qgt_bool_false in H
  | H : _ && _ = true |- _ => apply andb_prop in H; destruct H
  end.

Ltac split_min x y :=
  let H := fresh "Hmin" in
  destruct (Q.min_spec x y) as [[? H] | [? H]]; rewrite ?H in *.

Ltac split_max x y :=
  let H := fresh "Hmax" in
  destruct (Q.max_spec x y) as [[? H] | [? H]]; rewrite ?H in *.

Ltac in_fields := simpl; repeat (first [left; reflexivity | right]).

(** ** Bracket engine *)

Lemma lt_bound_le (a b : bound) : lt_bound a b = true -> le_bounds a b.
Proof.
  destruct a, b; simpl; intros H; try discriminate; try exact I.
  bool_to_Q. lra.
Qed.

Lemma increasing_ascending (table : list bracket) :
  forall prev, increasing prev table = true -> ascending prev table.
Proof.
  induction table as [| [limit rate] rest IH]; intros prev H; simpl in *.
  - exact I.
  - apply andb_prop in H. destruct H as [H1 H2].
    split; [apply lt_bound_le, H1 | apply IH, H2].
Qed.

Lemma valid_table_ascending (table : list bracket) :
  valid_table table = true -> ascending (Fin 0) table.
Proof.
  destruct table as [| [limit rate] rest]; simpl; [discriminate |].
  intros H. repeat (apply andb_prop in H; destruct H as [H ?]).
  split.
  - destruct limit; simpl in *; [bool_to_Q; lra | exact I].
  - apply increasing_ascending. assumption.
Qed.

Lemma valid_table_rates (table : list bracket) :
  valid_table table = true ->
  Forall (fun br => 0 <= snd br /\ snd br <= 1) table.
Proof.
  destruct table as [| [limit rate] rest]; [discriminate |].
  unfold valid_table. intros H.
  repeat (apply andb_prop in H; destruct H as [H ?]).
  apply Forall_forall. intros br Hbr.
  match goal with
  | F : forallb _ _ = true |- _ =>
      rewrite forallb_forall in F; specialize (F br)
  end.
  unfold rate_in_unit in *.
  assert (Hin : In br ((limit, rate) :: rest)) by (apply list_elem_of_In, Hbr).
  specialize (H0 Hin). bool_to_Q. split; assumption.
Qed.

(** The accumulator only shifts the result of the loop. *)
Lemma progressive_loop_shift (amount : Q) (table : list bracket) :
  forall tax prev,
    progressive_loop amount tax prev table
    == tax + progressive_loop amount 0 prev table.
Proof.
  induction table as [| [limit rate] rest IH]; intros tax prev; simpl.
  - lra.
  - destruct (le_bound amount prev); [lra |].
    destruct prev as [p |]; [| lra].
    rewrite (IH (tax + _)), (IH (0 + _)). lra.
Qed.

(** Once the previous bound is unbounded the loop is over. *)
Lemma progressive_loop_stop (amount tax : Q) (prev : bound) (table : list bracket) :
  le_bound amount prev = true ->
  progressive_loop amount tax prev table = tax.
Proof.
  intros H. destruct table as [| [limit rate] rest]; simpl; [reflexivity |].
  rewrite H. reflexivity.
Qed.

(** The portion the loop takes of a bracket is the specification's slice. *)
Lemma portion_slice (amount p : Q) (limit : bound) :
  min_bound amount limit - p = slice amount p limit.
Proof. destruct limit; reflexivity. Qed.

(** The loop is a run of the specification's iteration. *)
Lemma progressive_loop_iterates (amount : Q) (table : list bracket) :
  forall tax prev,
    iterates amount prev tax table (progressive_loop amount tax prev table).
Proof.
  induction table as [| [limit rate] rest IH]; intros tax prev; simpl.
  - constructor.
  - destruct (le_bound amount prev) eqn:E.
    + apply iterates_stop, E.
    + destruct prev as [p |]; [| discriminate].
      rewrite portion_slice.
      apply iterates_slice; [exact E | apply IH].
Qed.

(** The iteration has one result. *)
Lemma iterates_functional (amount : Q) prev tax table res :
  iterates amount prev tax table res ->
  res = progressive_loop amount tax prev table.
Proof.
  intros H. induction H as [| ? ? ? Hle | ? ? ? ? ? ? Hle _ IH].
  - reflexivity.
  - symmetry. apply progressive_loop_stop, Hle.
  - simpl in *. rewrite Hle, portion_slice. exact IH.
Qed.

(** Past the amount no slice is positive. *)
Lemma positive_slices_stop (amount : Q) (table : list bracket) :
  forall prev,
    le_bound amount prev = true -> ascending prev table ->
    positive_slices amount prev table == 0.
Proof.
  induction table as [| [limit rate] rest IH]; intros prev Hle Hasc;
    simpl; [reflexivity |].
  destruct Hasc as [Hpl Hasc].
  rewrite (IH limit); [| | exact Hasc].
  - destruct prev as [p |]; [| simpl; lra].
    simpl in Hle. bool_to_Q.
    destruct (Qgt_bool (slice amount p limit) 0) eqn:E; [| lra].
    bool_to_Q. exfalso.
    destruct limit as [l |]; simpl in *; [split_min amount l |]; lra.
  - destruct prev as [p |], limit as [l |]; simpl in *; try reflexivity;
      try contradiction.
    bool_to_Q. apply Qle_bool_iff. lra.
Qed.

(** On an ascending table the loop computes the sum of the positive slices. *)
Lemma progressive_loop_slices (amount : Q) (table : list bracket) :
  forall p,
    ascending (Fin p) table ->
    progressive_loop amount 0 (Fin p) table
    == positive_slices amount (Fin p) table.
Proof.
  induction table as [| [limit rate] rest IH]; intros p Hasc;
    [reflexivity |].
  destruct (le_bound amount (Fin p)) eqn:Hle.
  - rewrite progressive_loop_stop by exact Hle.
    symmetry. apply positive_slices_stop; assumption.
  - destruct Hasc as [Hpl Hasc]. simpl in Hle |- *. rewrite Hle.
    rewrite progressive_loop_shift. bool_to_Q.
    destruct limit as [l |]; simpl in *.
    + rewrite (IH l Hasc).
      destruct (Qgt_bool (Qmin amount l - p) 0) eqn:E; bool_to_Q; [lra |].
      assert (Hz : Qmin amount l - p == 0) by (split_min amount l; lra).
      rewrite Hz. lra.
    + rewrite progressive_loop_stop by reflexivity.
      rewrite positive_slices_stop by (simpl; auto).
      destruct (Qgt_bool (amount - p) 0) eqn:E; bool_to_Q; lra.
Qed.

(** The sum of the positive slices grows with the amount. *)
Lemma positive_slices_mono (a b : Q) (table : list bracket) :
  a <= b ->
  Forall (fun br => 0 <= snd br /\ snd br <= 1) table ->
  forall prev, positive_slices a prev table <= positive_slices b prev table.
Proof.
  intros Hab Hrates.
  induction Hrates as [| [limit rate] rest [Hr0 Hr1] _ IH]; intros prev;
    simpl in *; [lra |].
  specialize (IH limit).
  destruct prev as [p |]; [| simpl; lra].
  assert (Hs : slice a p limit <= slice b p limit).
  { destruct limit as [l |]; simpl; [| lra].
    split_min a l; split_min b l; lra. }
  destruct (Qgt_bool (slice a p limit) 0) eqn:Ea,
           (Qgt_bool (slice b p limit) 0) eqn:Eb; bool_to_Q; try nra.
Qed.

(** With rates of at most 1 the sum of the positive slices is at most what of
    the amount lies above the previous bound. *)
Lemma positive_slices_le (amount : Q) (table : list bracket) :
  Forall (fun br => 0 <= snd br /\ snd br <= 1) table ->
  forall p,
    ascending (Fin p) table ->
    positive_slices amount (Fin p) table <= Qmax 0 (amount - p).
Proof.
  intros Hrates.
  induction Hrates as [| [limit rate] rest [Hr0 Hr1] _ IH]; intros p Hasc.
  - simpl. apply Q.le_max_l.
  - destruct Hasc as [Hpl Hasc]. simpl in *.
    destruct limit as [l |]; simpl in *.
    + specialize (IH l Hasc).
      destruct (Qgt_bool (Qmin amount l - p) 0) eqn:E; bool_to_Q;
        split_min amount l; split_max 0 (amount - p); split_max 0 (amount - l);
        try nra.
    + rewrite positive_slices_stop by (simpl; auto).
      destruct (Qgt_bool (amount - p) 0) eqn:E; bool_to_Q;
        split_max 0 (amount - p); try nra.
Qed.

(** An amount above every finite bound reaches the unbounded bracket, which
    adds what of the amount lies above the last finite bound, at its rate. *)
Lemma progressive_loop_top (amount finalRate : Q) (front : list (Q * Q)) :
  Forall (fun br => fst br < amount) front ->
  forall tax p,
    p < amount ->
    progressive_loop amount tax (Fin p)
      (map fin_bracket front ++ [(PInf, finalRate)])
    == progressive_loop amount tax (Fin p) (map fin_bracket front)
       + (amount - match last front with Some (b, _) => b | None => p end)
         * finalRate.
Proof.
  intros Hfront.
  induction Hfront as [| [b rate] rest Hb _ IH]; intros tax p Hp; simpl in *.
  - assert (E : Qle_bool amount p = false) by (apply Qle_bool_false, Hp).
    rewrite E. lra.
  - assert (E : Qle_bool amount p = false) by (apply Qle_bool_false, Hp).
    rewrite E. rewrite (IH _ b Hb). rewrite last_cons.
    destruct (last rest) as [[b' rate'] |]; reflexivity.
Qed.

(** An amount inside a bracket: the brackets before it are taxed in full,
    the bracket itself on what of the amount lies above the bound before it,
    and the brackets after it not at all. *)
Lemma progressive_loop_within (amount rate : Q) (limit : bound)
    (rest : list bracket) (front : list (Q * Q)) :
  le_bound amount limit = true ->
  Forall (fun br => fst br < amount) front ->
  forall tax p,
    p < amount ->
    progressive_loop amount tax (Fin p)
      (map fin_bracket front ++ (limit, rate) :: rest)
    == tax + full_brackets p front
       + (amount - match last front with Some (b, _) => b | None => p end)
         * rate.
Proof.
  intros Hlimit Hfront.
  induction Hfront as [| [b r] front' Hb _ IH]; intros tax p Hp; simpl in *.
  - assert (E : Qle_bool amount p = false) by (apply Qle_bool_false, Hp).
    rewrite E, progressive_loop_stop by exact Hlimit.
    destruct limit as [l |]; simpl in *; [| lra].
    bool_to_Q.
    assert (Hmin : Qmin amount l == amount) by (apply Q.min_l; lra).
    rewrite Hmin. lra.
  - assert (E : Qle_bool amount p = false) by (apply Qle_bool_false, Hp).
    rewrite E, (IH _ b Hb), last_cons.
    assert (Hmin : Qmin amount b == b) by (apply Q.min_r; lra).
    rewrite Hmin.
    destruct (last front') as [[b' r'] |]; lra.
Qed.

Example tax_new_1m :
  calculate_progressive_tax 1000000 PIT_BRACKETS_NEW == 30000.
Proof. vm_compute. reflexivity. Qed.

Example tax_old_1m :
  calculate_progressive_tax 1000000 PIT_BRACKETS_OLD == 114000.
Proof. vm_compute. reflexivity. Qed.

Example tax_new_top :
  calculate_progressive_tax 30000000 PIT_BRACKETS_NEW == 9480000.
Proof. vm_compute. reflexivity. Qed.

Example PIT_BRACKETS_valid :
  valid_table PIT_BRACKETS_NEW = true /\ valid_table PIT_BRACKETS_OLD = true.
Proof. split; vm_compute; reflexivity. Qed.

Lemma calculate_progressive_tax_slices (amount : Q) (table : list bracket) :
  valid_table table = true ->
  calculate_progressive_tax amount table
  == positive_slices amount (Fin 0) table.
Proof.
  intros Hv. apply progressive_loop_slices, valid_table_ascending, Hv.
Qed.

Lemma calculate_progressive_tax_le (amount : Q) (table : list bracket) :
  valid_table table = true -> 0 <= amount ->
  calculate_progressive_tax amount table <= amount.
Proof.
  intros Hv Ha. rewrite calculate_progressive_tax_slices by exact Hv.
  pose proof (positive_slices_le amount table (valid_table_rates _ Hv) 0
                (valid_table_ascending _ Hv)) as H.
  split_max 0 (amount - 0); lra.
Qed.

Section CalculatorFacts.

Variable str_to_float : string -> option Q.

Lemma get_float_numeric (keys : list string) (data : gmap string pyval)
    (key : string) :
  numeric_fields keys data = true -> In key keys ->
  get_float str_to_float data key = Ok (num data key).
Proof.
  unfold numeric_fields. rewrite forallb_forall. intros H Hin.
  specialize (H key Hin). unfold number_or_absent, get_float, num in *.
  destruct (data !! key) as [[] |]; simpl; try discriminate; reflexivity.
Qed.

(** An absent field is read as the number 0. *)
Lemma get_float_absent (data : gmap string pyval) (key key' : string) :
  data !! key = None ->
  get_float str_to_float (<[key := PyNum 0]> data) key'
  = get_float str_to_float data key'.
Proof.
  intros H. unfold get_float.
  destruct (decide (key = key')) as [<- | Hne].
  - rewrite lookup_insert_eq, H. reflexivity.
  - rewrite lookup_insert_ne by exact Hne. reflexivity.
Qed.

(** What [calculate_pit] returns on numeric fields, entry by entry. *)
Lemma calculate_pit_numeric (data : gmap string pyval) (use_old_law : bool) :
  numeric_fields pit_fields data = true ->
  exists r,
    calculate_pit str_to_float data use_old_law = Ok r
    /\ Pit.law r = (if use_old_law then "OLD" else "NEW")
    /\ Pit.housing_raw r = num data "housing_allowance"
    /\ Pit.housing_allowance_capped r
       = (if use_old_law then num data "housing_allowance"
          else Qmin (num data "housing_allowance") HOUSING_ALLOWANCE_CAP)
    /\ Pit.gross_income r
       = num data "basic_salary" + Pit.housing_allowance_capped r
         + num data "transport_allowance" + num data "other_allowances"
    /\ Pit.cra r
       = (if use_old_law then 1 # 100 else 20 # 100) * Pit.gross_income r
         + 200000
    /\ Pit.taxable_income r
       = Qmax 0 (Pit.gross_income r - Pit.cra r
                 - (num data "pension" + num data "nhf"
                    + num data "life_insurance"))
    /\ Pit.annual_paye r
       = calculate_progressive_tax (Pit.taxable_income r)
           (if use_old_law then PIT_BRACKETS_OLD else PIT_BRACKETS_NEW)
    /\ Pit.monthly_paye r = Pit.annual_paye r / 12
    /\ Pit.capital_gains_tax r
       = (num data "capital_gains" + num data "digital_assets")
         * (if use_old_law then CGT_RATE_OLD else CGT_RATE_NEW)
    /\ Pit.total_tax r = Pit.annual_paye r + Pit.capital_gains_tax r
    /\ Pit.net_income r
       = Pit.gross_income r + num data "capital_gains"
         + num data "digital_assets" - Pit.total_tax r
    /\ Pit.monthly_take_home r = Pit.net_income r / 12
    /\ Pit.first_tax_free r = (if use_old_law then 0 else 800000).
Proof.
  intros H. unfold calculate_pit.
  rewrite !(get_float_numeric pit_fields data _ H) by in_fields.
  destruct use_old_law; simpl; eexists; (split; [reflexivity |]);
    simpl; repeat split; reflexivity.
Qed.

(** What [calculate_cit] returns on numeric fields, entry by entry. *)
Lemma calculate_cit_numeric (data : gmap string pyval) (use_old_law : bool) :
  numeric_fields cit_fields data = true ->
  exists r rate,
    calculate_cit str_to_float data use_old_law = Ok r
    /\ Cit.law r = (if use_old_law then "OLD" else "NEW")
    /\ Cit.turnover r = num data "turnover"
    /\ Cit.profit r = num data "profit"
    /\ (rate, Cit.company_size r)
       = (if use_old_law then
            if Qle_bool (num data "turnover") 25000000
            then (0, "Small Company")
            else if Qle_bool (num data "turnover") 100000000
            then (20 # 100, "Medium Company")
            else (30 # 100, "Large Company")
          else
            if Qle_bool (num data "turnover") 50000000
            then (0, "Small Company")
            else if Qle_bool (num data "turnover") 150000000
            then (18 # 100, "Medium Company")
            else (25 # 100, "Large Company"))
    /\ Cit.cit_rate r = rate * 100
    /\ Cit.cit_payable r = num data "profit" * rate
    /\ Cit.net_profit r = num data "profit" - Cit.cit_payable r
    /\ Cit.monthly_net_profit r = Cit.net_profit r / 12.
Proof.
  intros H. unfold calculate_cit.
  rewrite !(get_float_numeric cit_fields data _ H) by in_fields.
  simpl.
  destruct use_old_law;
    repeat match goal with
    | |- context [Qle_bool ?x ?y] => destruct (Qle_bool x y)
    end; simpl; eexists; eexists; (split; [reflexivity |]);
    simpl; repeat split; reflexivity.
Qed.

End CalculatorFacts.

(** * The bracket engine *)

(** C1.  For every amount >= 0 and every valid bracket table,
    [calculate_progressive_tax] is the specification's iteration: started
    with previous bound 0 and tax 0 it goes through the brackets in order,
    stops as soon as [amount <= previousBound], and otherwise accumulates
    [(min(amount, upperBound) - previousBound) * rate] and advances the
    previous bound to [upperBound]; the iteration has no other result.  The
    result is the sum of [slice * rate] over the brackets whose slice is
    positive.  It is 0 when the amount is 0.  When the amount lies above
    every bound of the brackets before a bracket and not above the bound of
    that bracket, each earlier bracket is taxed on its full width, that
    bracket on [amount - lastEarlierBound] and the later ones not at all; in
    particular, when the amount exceeds every finite bound the final
    unbounded bracket contributes [(amount - lastFiniteBound) * finalRate]
    on top of the full widths of the finite brackets. *)
Theorem calculate_progressive_tax_spec (amount : Q) (table : list bracket) :
  0 <= amount ->
  valid_table table = true ->
  iterates amount (Fin 0) 0 table (calculate_progressive_tax amount table)
  /\ (forall res,
        iterates amount (Fin 0) 0 table res ->
        res = calculate_progressive_tax amount table)
  /\ calculate_progressive_tax amount table
     == positive_slices amount (Fin 0) table
  /\ (amount == 0 -> calculate_progressive_tax amount table == 0)
  /\ (forall front upperBound rate rest,
        table = map fin_bracket front ++ (upperBound, rate) :: rest ->
        Forall (fun br => fst br < amount) front ->
        match upperBound with
        | Fin u => amount <= u
        | PInf => True
        end ->
        calculate_progressive_tax amount table
        == full_brackets 0 front + (amount - last_finite_bound front) * rate)
  /\ (forall front finalRate,
        table = map fin_bracket front ++ [(PInf, finalRate)] ->
        Forall (fun br => fst br < amount) front ->
        calculate_progressive_tax amount table
        == full_brackets 0 front
           + (amount - last_finite_bound front) * finalRate).
Proof.
  intros Ha Hv.
  assert (Hwithin : forall front upperBound rate rest,
    table = map fin_bracket front ++ (upperBound, rate) :: rest ->
    Forall (fun br => fst br < amount) front ->
    match upperBound with Fin u => amount <= u | PInf => True end ->
    calculate_progressive_tax amount table
    == full_brackets 0 front + (amount - last_finite_bound front) * rate).
  { intros front upperBound rate rest -> Hfront Hupper.
    assert (Hle : le_bound amount upperBound = true).
    { destruct upperBound; [apply Qle_bool_iff, Hupper | reflexivity]. }
    unfold calculate_progressive_tax, last_finite_bound.
    destruct (Qlt_le_dec 0 amount) as [Hpos | Hnpos].
    - rewrite (progressive_loop_within amount rate upperBound rest front
                 Hle Hfront 0 0 Hpos). lra.
    - destruct front as [| [b r] front'].
      + assert (E : amount == 0) by lra.
        rewrite progressive_loop_stop by (apply Qle_bool_iff; lra).
        simpl. rewrite E. lra.
      + exfalso. apply Forall_cons in Hfront. destruct Hfront as [Hb _].
        simpl in Hv, Hb. repeat (apply andb_prop in Hv; destruct Hv as [Hv ?]).
        bool_to_Q. lra. }
  repeat split.
  - apply progressive_loop_iterates.
  - apply iterates_functional.
  - apply calculate_progressive_tax_slices, Hv.
  - intros H0. unfold calculate_progressive_tax.
    rewrite progressive_loop_stop; [reflexivity |].
    apply Qle_bool_iff. lra.
  - exact Hwithin.
  - intros front finalRate Htable Hfront.
    apply (Hwithin front PInf finalRate [] Htable Hfront I).
Qed.

Lemma calculate_progressive_tax_spec_witness :
  calculate_progressive_tax 30000000 PIT_BRACKETS_NEW
  == (800000 - 0) * 0 + (3200000 - 800000) * (15 # 100)
     + (7200000 - 3200000) * (25 # 100) + (12200000 - 7200000) * (30 # 100)
     + (22200000 - 12200000) * (35 # 100)
     + (30000000 - 22200000) * (40 # 100).
Proof.
  assert (Ha : 0 <= 30000000) by (vm_compute; discriminate).
  assert (Hv : valid_table PIT_BRACKETS_NEW = true) by (vm_compute; reflexivity).
  destruct (calculate_progressive_tax_spec 30000000 PIT_BRACKETS_NEW Ha Hv)
    as (_ & _ & _ & _ & _ & Htop).
  rewrite (Htop [ (800000, 0); (3200000, 15 # 100); (7200000, 25 # 100);
                  (12200000, 30 # 100); (22200000, 35 # 100) ] (40 # 100)).
  - vm_compute. reflexivity.
  - reflexivity.
  - repeat constructor.
Defined.

(** C9.  For every valid bracket table and amounts [a <= b] (in particular
    [0 <= a <= b]), the progressive tax of [a] is at most that of [b]. *)
Theorem calculate_progressive_tax_monotone (table : list bracket) (a b : Q) :
  valid_table table = true ->
  a <= b ->
  calculate_progressive_tax a table <= calculate_progressive_tax b table.
Proof.
  intros Hv Hab.
  rewrite !calculate_progressive_tax_slices by exact Hv.
  apply positive_slices_mono; [exact Hab | apply valid_table_rates, Hv].
Qed.

Lemma calculate_progressive_tax_monotone_witness :
  calculate_progressive_tax 700000 PIT_BRACKETS_OLD
  <= calculate_progressive_tax 5000000 PIT_BRACKETS_OLD.
Proof.
  apply (calculate_progressive_tax_monotone PIT_BRACKETS_OLD 700000 5000000).
  - vm_compute. reflexivity.
  - vm_compute. discriminate.
Defined.

(** C10.  Every rate of the two hard-coded PIT tables is at most 0.40, and
    for every amount >= 0 the progressive tax under either table is at most
    the amount, so the annual PAYE [calculate_pit] returns (and on numeric
    fields it does return) never exceeds the taxable income it is computed
    from. *)
Theorem pit_brackets_tax_le_amount (amount : Q) :
  0 <= amount ->
  Forall (fun br : bracket => snd br <= 40 # 100)
    (PIT_BRACKETS_OLD ++ PIT_BRACKETS_NEW)
  /\ calculate_progressive_tax amount PIT_BRACKETS_OLD <= amount
  /\ calculate_progressive_tax amount PIT_BRACKETS_NEW <= amount
  /\ (forall str_to_float data use_old_law,
        numeric_fields pit_fields data = true ->
        exists r, calculate_pit str_to_float data use_old_law = Ok r)
  /\ (forall str_to_float data use_old_law r,
        calculate_pit str_to_float data use_old_law = Ok r ->
        Pit.annual_paye r <= Pit.taxable_income r).
Proof.
  intros Ha. split; [| repeat split].
  - repeat constructor; discriminate.
  - apply calculate_progressive_tax_le; [reflexivity | exact Ha].
  - apply calculate_progressive_tax_le; [reflexivity | exact Ha].
  - intros str_to_float data use_old_law Hn.
    destruct (calculate_pit_numeric str_to_float data use_old_law Hn)
      as (r & Hr & _).
    exists r. exact Hr.
  - intros str_to_float data use_old_law r. unfold calculate_pit.
    repeat match goal with
    | |- context [get_float ?f ?d ?k] =>
        destruct (get_float f d k); simpl; [| discriminate]
    end.
    destruct use_old_law; intros [= <-]; simpl;
      (apply calculate_progressive_tax_le; [reflexivity | apply Q.le_max_l]).
Qed.

Lemma pit_brackets_tax_le_amount_witness :
  calculate_progressive_tax 1000000 PIT_BRACKETS_OLD <= 1000000.
Proof.
  apply (pit_brackets_tax_le_amount 1000000).
  vm_compute. discriminate.
Defined.

(** * The PIT calculator *)

Lemma same_but_gains_num (data data' : gmap string pyval) (key : string) :
  same_but_gains data data' ->
  key <> "capital_gains" -> key <> "digital_assets" ->
  num data' key = num data key.
Proof.
  intros H H1 H2. unfold num. rewrite (H key H1 H2). reflexivity.
Qed.

(** The gains of a request reach neither its gross income nor its relief,
    taxable income or PAYE. *)
Lemma calculate_pit_gains_apart (str_to_float : string -> option Q)
    (data data' : gmap string pyval) (use_old_law : bool) :
  numeric_fields pit_fields data = true ->
  numeric_fields pit_fields data' = true ->
  same_but_gains data data' ->
  exists r r',
    calculate_pit str_to_float data use_old_law = Ok r
    /\ calculate_pit str_to_float data' use_old_law = Ok r'
    /\ Pit.gross_income r' = Pit.gross_income r
    /\ Pit.cra r' = Pit.cra r
    /\ Pit.taxable_income r' = Pit.taxable_income r
    /\ Pit.annual_paye r' = Pit.annual_paye r.
Proof.
  intros Hn Hn' Hsame.
  destruct (calculate_pit_numeric str_to_float data use_old_law Hn)
    as (r & Hr & _ & _ & Hh & Hg & Hc & Ht & Hp & _).
  destruct (calculate_pit_numeric str_to_float data' use_old_law Hn')
    as (r' & Hr' & _ & _ & Hh' & Hg' & Hc' & Ht' & Hp' & _).
  exists r, r'.
  assert (En : forall key,
             key <> "capital_gains" -> key <> "digital_assets" ->
             num data' key = num data key)
    by (intros key; apply same_but_gains_num, Hsame).
  rewrite (En "housing_allowance") in Hh' by discriminate.
  rewrite (En "basic_salary"), (En "transport_allowance"),
    (En "other_allowances") in Hg' by discriminate.
  rewrite (En "pension"), (En "nhf"), (En "life_insurance") in Ht'
    by discriminate.
  assert (Eh : Pit.housing_allowance_capped r' = Pit.housing_allowance_capped r)
    by congruence.
  assert (Eg : Pit.gross_income r' = Pit.gross_income r) by congruence.
  assert (Ec : Pit.cra r' = Pit.cra r) by congruence.
  assert (Et : Pit.taxable_income r' = Pit.taxable_income r) by congruence.
  repeat split; try assumption. congruence.
Qed.

Example pit_example_new :
  exists r,
    calculate_pit no_string_number pit_example false = Ok r
    /\ Pit.housing_allowance_capped r == 500000
    /\ Pit.gross_income r == 1500000
    /\ Pit.cra r == 500000
    /\ Pit.taxable_income r == 1000000
    /\ Pit.annual_paye r == 30000
    /\ Pit.total_tax r == 30000
    /\ Pit.net_income r == 1470000.
Proof. eexists. split; [vm_compute; reflexivity |]. repeat split. Qed.

(** C2.  For every PIT request with numeric fields (absent ones read as 0)
    and either regime, the gross income is basic + effective housing +
    transport + other allowances, the relief is 0.01 * gross + 200,000 under
    OLD and 0.20 * gross + 200,000 under NEW, and the taxable income is
    [max(0, gross - relief - (pension + NHF + life insurance))], hence never
    negative.  Capital gains and digital-asset gains are excluded: a request
    that differs only in them has the same gross income, relief and taxable
    income.  Filling an absent field with 0 changes nothing. *)
Theorem calculate_pit_taxable_income (str_to_float : string -> option Q)
    (data : gmap string pyval) (use_old_law : bool) :
  numeric_fields pit_fields data = true ->
  exists r,
    calculate_pit str_to_float data use_old_law = Ok r
    /\ Pit.gross_income r
       == num data "basic_salary"
          + (if use_old_law then num data "housing_allowance"
             else Qmin (num data "housing_allowance") 500000)
          + num data "transport_allowance" + num data "other_allowances"
    /\ Pit.cra r
       == (if use_old_law then 1 # 100 else 20 # 100) * Pit.gross_income r
          + 200000
    /\ Pit.taxable_income r
       == Qmax 0 (Pit.gross_income r - Pit.cra r
                  - (num data "pension" + num data "nhf"
                     + num data "life_insurance"))
    /\ 0 <= Pit.taxable_income r
    /\ (forall data',
          numeric_fields pit_fields data' = true ->
          same_but_gains data data' ->
          exists r',
            calculate_pit str_to_float data' use_old_law = Ok r'
            /\ Pit.gross_income r' = Pit.gross_income r
            /\ Pit.cra r' = Pit.cra r
            /\ Pit.taxable_income r' = Pit.taxable_income r)
    /\ (forall key,
          data !! key = None ->
          calculate_pit str_to_float (<[key := PyNum 0]> data) use_old_law
          = Ok r).
Proof.
  intros Hn.
  destruct (calculate_pit_numeric str_to_float data use_old_law Hn)
    as (r & Hr & _ & _ & Hh & Hg & Hc & Ht & _).
  exists r. split; [exact Hr |]. repeat split.
  - rewrite Hg, Hh. reflexivity.
  - rewrite Hc. reflexivity.
  - rewrite Ht. reflexivity.
  - rewrite Ht. apply Q.le_max_l.
  - intros data' Hn' Hsame.
    destruct (calculate_pit_gains_apart str_to_float data data' use_old_law
                Hn Hn' Hsame) as (r0 & r' & Hr0 & Hr' & Eg & Ec & Et & _).
    assert (r0 = r) as -> by congruence.
    exists r'. repeat split; assumption.
  - intros key Hkey. rewrite <- Hr. unfold calculate_pit.
    rewrite !get_float_absent by exact Hkey. reflexivity.
Qed.

Lemma calculate_pit_taxable_income_witness :
  exists r,
    calculate_pit no_string_number pit_example false = Ok r
    /\ Pit.taxable_income r
       == Qmax 0 (Pit.gross_income r - Pit.cra r - (0 + 0 + 0)).
Proof.
  destruct (calculate_pit_taxable_income no_string_number pit_example false)
    as (r & Hr & _ & _ & Ht & _).
  - vm_compute. reflexivity.
  - exists r. split; [exact Hr | exact Ht].
Defined.

(** C5.  With [h] the raw housing allowance of a request, [calculate_pit]
    under the NEW regime uses and reports the effective housing allowance
    [min(h, 500,000)], which never exceeds 500,000; under the OLD regime the
    effective and reported housing allowance is [h] itself. *)
Theorem calculate_pit_housing_cap (str_to_float : string -> option Q)
    (data : gmap string pyval) :
  numeric_fields pit_fields data = true ->
  exists r_old r_new,
    calculate_pit str_to_float data true = Ok r_old
    /\ calculate_pit str_to_float data false = Ok r_new
    /\ Pit.housing_raw r_new = num data "housing_allowance"
    /\ Pit.housing_allowance_capped r_new
       == Qmin (num data "housing_allowance") 500000
    /\ Pit.housing_allowance_capped r_new <= 500000
    /\ Pit.gross_income r_new
       == num data "basic_salary"
          + Qmin (num data "housing_allowance") 500000
          + num data "transport_allowance" + num data "other_allowances"
    /\ Pit.housing_raw r_old = num data "housing_allowance"
    /\ Pit.housing_allowance_capped r_old = num data "housing_allowance"
    /\ Pit.gross_income r_old
       == num data "basic_salary" + num data "housing_allowance"
          + num data "transport_allowance" + num data "other_allowances".
Proof.
  intros Hn.
  destruct (calculate_pit_numeric str_to_float data true Hn)
    as (r_old & Hro & _ & Hraw_o & Hh_o & Hg_o & _).
  destruct (calculate_pit_numeric str_to_float data false Hn)
    as (r_new & Hrn & _ & Hraw_n & Hh_n & Hg_n & _).
  exists r_old, r_new. repeat split; try assumption.
  - rewrite Hh_n. reflexivity.
  - rewrite Hh_n. apply Q.le_min_r.
  - rewrite Hg_n, Hh_n. reflexivity.
  - rewrite Hg_o, Hh_o. reflexivity.
Qed.

Lemma calculate_pit_housing_cap_witness :
  exists r_old r_new,
    calculate_pit no_string_number pit_example true = Ok r_old
    /\ calculate_pit no_string_number pit_example false = Ok r_new
    /\ Pit.housing_allowance_capped r_new <= 500000
    /\ Pit.housing_allowance_capped r_old = num pit_example "housing_allowance".
Proof.
  destruct (calculate_pit_housing_cap no_string_number pit_example)
    as (r_old & r_new & Ho & Hnw & _ & _ & Hcap & _ & _ & Hold & _).
  - vm_compute. reflexivity.
  - exists r_old, r_new. repeat split; assumption.
Defined.

(** C6.  For every PIT request with numeric fields and either regime, the
    capital-gains tax is (capitalGains + digitalAssetGains) times the flat
    rate of the regime, 5% under OLD and 10% under NEW; the bracket engine
    runs on the taxable income alone, and a request that differs only in the
    gains has the same taxable income and annual PAYE; the total tax is the
    annual PAYE plus the capital-gains tax, and the net income is gross +
    capitalGains + digitalAssetGains - total tax. *)
Theorem calculate_pit_capital_gains (str_to_float : string -> option Q)
    (data : gmap string pyval) (use_old_law : bool) :
  numeric_fields pit_fields data = true ->
  exists r,
    calculate_pit str_to_float data use_old_law = Ok r
    /\ Pit.capital_gains_tax r
       == (num data "capital_gains" + num data "digital_assets")
          * (if use_old_law then 5 # 100 else 10 # 100)
    /\ Pit.annual_paye r
       == calculate_progressive_tax (Pit.taxable_income r)
            (if use_old_law then PIT_BRACKETS_OLD else PIT_BRACKETS_NEW)
    /\ (forall data',
          numeric_fields pit_fields data' = true ->
          same_but_gains data data' ->
          exists r',
            calculate_pit str_to_float data' use_old_law = Ok r'
            /\ Pit.taxable_income r' = Pit.taxable_income r
            /\ Pit.annual_paye r' = Pit.annual_paye r)
    /\ Pit.total_tax r == Pit.annual_paye r + Pit.capital_gains_tax r
    /\ Pit.net_income r
       == Pit.gross_income r + num data "capital_gains"
          + num data "digital_assets" - Pit.total_tax r.
Proof.
  intros Hn.
  destruct (calculate_pit_numeric str_to_float data use_old_law Hn)
    as (r & Hr & _ & _ & _ & _ & _ & _ & Hp & _ & Hcgt & Htot & Hnet & _).
  exists r. split; [exact Hr |]. repeat split.
  - rewrite Hcgt. destruct use_old_law; reflexivity.
  - rewrite Hp. reflexivity.
  - intros data' Hn' Hsame.
    destruct (calculate_pit_gains_apart str_to_float data data' use_old_law
                Hn Hn' Hsame) as (r0 & r' & Hr0 & Hr' & _ & _ & Et & Ep).
    assert (r0 = r) as -> by congruence.
    exists r'. repeat split; assumption.
  - rewrite Htot. reflexivity.
  - rewrite Hnet. reflexivity.
Qed.

Lemma calculate_pit_capital_gains_witness :
  exists r,
    calculate_pit no_string_number pit_gains_example true = Ok r
    /\ Pit.capital_gains_tax r == (200000 + 50000) * (5 # 100)
    /\ Pit.total_tax r == Pit.annual_paye r + Pit.capital_gains_tax r.
Proof.
  destruct (calculate_pit_capital_gains no_string_number pit_gains_example true)
    as (r & Hr & Hcgt & _ & _ & Htot & _).
  - vm_compute. reflexivity.
  - exists r. repeat split; assumption.
Defined.

(** * The CIT calculator *)

Example cit_example_old_new :
  exists r_old r_new,
    calculate_cit no_string_number cit_example true = Ok r_old
    /\ calculate_cit no_string_number cit_example false = Ok r_new
    /\ Cit.company_size r_old = "Medium Company"
    /\ Cit.cit_payable r_old == 2000000
    /\ Cit.net_profit r_old == 8000000
    /\ Cit.company_size r_new = "Medium Company"
    /\ Cit.cit_payable r_new == 1800000
    /\ Cit.net_profit r_new == 8200000.
Proof.
  eexists. eexists.
  split; [vm_compute; reflexivity |]. split; [vm_compute; reflexivity |].
  repeat split.
Qed.

(** The tier of a turnover: the first threshold, in order, that the turnover
    does not exceed. *)
Lemma calculate_cit_tier (str_to_float : string -> option Q)
    (data : gmap string pyval) (use_old_law : bool) :
  numeric_fields cit_fields data = true ->
  exists r rate,
    calculate_cit str_to_float data use_old_law = Ok r
    /\ Cit.cit_rate r = rate * 100
    /\ Cit.cit_payable r = num data "profit" * rate
    /\ Cit.net_profit r = num data "profit" - Cit.cit_payable r
    /\ Cit.monthly_net_profit r = Cit.net_profit r / 12
    /\ let small := if use_old_law then 25000000 else 50000000 in
       let medium := if use_old_law then 100000000 else 150000000 in
       (num data "turnover" <= small /\
        rate = 0 /\ Cit.company_size r = "Small Company")
       \/ (small < num data "turnover" /\ num data "turnover" <= medium /\
           rate = (if use_old_law then 20 # 100 else 18 # 100) /\
           Cit.company_size r = "Medium Company")
       \/ (medium < num data "turnover" /\
           rate = (if use_old_law then 30 # 100 else 25 # 100) /\
           Cit.company_size r = "Large Company").
Proof.
  intros Hn.
  destruct (calculate_cit_numeric str_to_float data use_old_law Hn)
    as (r & rate & Hr & _ & _ & _ & Htier & Hrate & Hcit & Hnet & Hmon).
  exists r, rate. repeat (split; [assumption |]).
  destruct use_old_law; simpl;
    repeat match type of Htier with
    | context [Qle_bool ?x ?y] => destruct (Qle_bool x y) eqn:?
    end; injection Htier as -> ->; bool_to_Q;
    [ left | right; left | right; right | left | right; left | right; right ];
    repeat split; try assumption; try reflexivity; lra.
Qed.

(** C3.  For every turnover [calculate_cit] picks tier and rate by the
    ordered thresholds, upper bounds included: under OLD at most 25,000,000
    is Small at 0%, at most 100,000,000 is Medium at 20%, anything above is
    Large at 30%; under NEW at most 50,000,000 is Small at 0%, at most
    150,000,000 is Medium at 18%, anything above is Large at 25%.  A
    turnover exactly at a boundary is in the lower tier. *)
Theorem calculate_cit_tiers (str_to_float : string -> option Q)
    (data : gmap string pyval) :
  numeric_fields cit_fields data = true ->
  exists r_old r_new,
    calculate_cit str_to_float data true = Ok r_old
    /\ calculate_cit str_to_float data false = Ok r_new
    /\ (num data "turnover" <= 25000000 ->
        Cit.cit_rate r_old == 0 /\ Cit.company_size r_old = "Small Company")
    /\ (25000000 < num data "turnover" -> num data "turnover" <= 100000000 ->
        Cit.cit_rate r_old == 20 /\ Cit.company_size r_old = "Medium Company")
    /\ (100000000 < num data "turnover" ->
        Cit.cit_rate r_old == 30 /\ Cit.company_size r_old = "Large Company")
    /\ (num data "turnover" <= 50000000 ->
        Cit.cit_rate r_new == 0 /\ Cit.company_size r_new = "Small Company")
    /\ (50000000 < num data "turnover" -> num data "turnover" <= 150000000 ->
        Cit.cit_rate r_new == 18 /\ Cit.company_size r_new = "Medium Company")
    /\ (150000000 < num data "turnover" ->
        Cit.cit_rate r_new == 25 /\ Cit.company_size r_new = "Large Company")
    /\ Cit.cit_payable r_old * 100 == num data "profit" * Cit.cit_rate r_old
    /\ Cit.cit_payable r_new * 100 == num data "profit" * Cit.cit_rate r_new.
Proof.
  intros Hn.
  destruct (calculate_cit_tier str_to_float data true Hn)
    as (r_old & rate_o & Hro & Hrate_o & Hcit_o & _ & _ & Ht_o).
  destruct (calculate_cit_tier str_to_float data false Hn)
    as (r_new & rate_n & Hrn & Hrate_n & Hcit_n & _ & _ & Ht_n).
  exists r_old, r_new. simpl in Ht_o, Ht_n.
  split; [exact Hro |]. split; [exact Hrn |].
  rewrite Hrate_o, Hrate_n, Hcit_o, Hcit_n.
  repeat split; try intros;
    try (destruct Ht_o as [(? & -> & ?) | [(? & ? & -> & ?) | (? & -> & ?)]];
         first [assumption | reflexivity | exfalso; lra]);
    try (destruct Ht_n as [(? & -> & ?) | [(? & ? & -> & ?) | (? & -> & ?)]];
         first [assumption | reflexivity | exfalso; lra]);
    try ring.
Qed.

Lemma calculate_cit_tiers_witness :
  exists r_old r_new,
    calculate_cit no_string_number cit_boundary_example true = Ok r_old
    /\ calculate_cit no_string_number cit_boundary_example false = Ok r_new
    /\ Cit.cit_rate r_old == 0 /\ Cit.company_size r_old = "Small Company"
    /\ Cit.cit_rate r_new == 0 /\ Cit.company_size r_new = "Small Company".
Proof.
  destruct (calculate_cit_tiers no_string_number cit_boundary_example)
    as (r_old & r_new & Ho & Hn & Hso & _ & _ & Hsn & _).
  - vm_compute. reflexivity.
  - exists r_old, r_new. split; [exact Ho |]. split; [exact Hn |].
    assert (Hb : num cit_boundary_example "turnover" <= 25000000)
      by (vm_compute; discriminate).
    assert (Hb' : num cit_boundary_example "turnover" <= 50000000)
      by (vm_compute; discriminate).
    destruct (Hso Hb) as [? ?]. destruct (Hsn Hb') as [? ?].
    repeat split; assumption.
Defined.

(** C8, as stated, fails: a negative profit of a company in the Small tier,
    whose rate is 0, yields the tax payable 0, which is not negative. *)
Lemma calculate_cit_loss_small_company :
  exists r,
    calculate_cit no_string_number cit_loss_example true = Ok r
    /\ Cit.profit r < 0
    /\ Cit.cit_payable r == 0
    /\ ~ Cit.cit_payable r < 0.
Proof.
  eexists. split; [vm_compute; reflexivity |]. simpl.
  repeat split; intros H; discriminate H.
Qed.

(** C8, amended.  For every profit of any sign and every turnover,
    [calculate_cit] returns the tax payable profit * rate with no floor or
    clamp, the net profit profit - tax payable and the monthly net profit
    net profit / 12.  A negative profit yields a negative tax payable
    whenever the rate of the tier is not 0, that is, whenever the turnover
    is above the Small threshold; in the Small tier the tax payable is 0. *)
Theorem calculate_cit_payable (str_to_float : string -> option Q)
    (data : gmap string pyval) (use_old_law : bool) :
  numeric_fields cit_fields data = true ->
  exists r,
    calculate_cit str_to_float data use_old_law = Ok r
    /\ Cit.cit_payable r * 100 == num data "profit" * Cit.cit_rate r
    /\ Cit.net_profit r == num data "profit" - Cit.cit_payable r
    /\ Cit.monthly_net_profit r == Cit.net_profit r / 12
    /\ (0 < Cit.cit_rate r <->
        (if use_old_law then 25000000 else 50000000) < num data "turnover")
    /\ (num data "profit" < 0 -> 0 < Cit.cit_rate r -> Cit.cit_payable r < 0)
    /\ (Cit.cit_rate r == 0 -> Cit.cit_payable r == 0).
Proof.
  intros Hn.
  destruct (calculate_cit_tier str_to_float data use_old_law Hn)
    as (r & rate & Hr & Hrate & Hcit & Hnet & Hmon & Htier).
  exists r. split; [exact Hr |].
  rewrite Hmon, Hnet, Hrate, Hcit. simpl in Htier.
  assert (Hcases :
    (rate == 0 /\
     num data "turnover" <= (if use_old_law then 25000000 else 50000000))
    \/ (18 # 100 <= rate /\
        (if use_old_law then 25000000 else 50000000) < num data "turnover")).
  { destruct Htier as [(? & -> & _) | [(? & ? & -> & _) | (? & -> & _)]];
      destruct use_old_law; (left; split; [reflexivity | lra])
                            || (right; split; lra). }
  repeat split; try intros; try ring.
  - destruct Hcases as [[E ?] | [? ?]]; [| assumption].
    rewrite E in *. exfalso. lra.
  - destruct Hcases as [[E ?] | [? ?]]; [exfalso; lra | lra].
  - nra.
  - assert (E : rate == 0) by lra. rewrite E. ring.
Qed.

Lemma calculate_cit_payable_witness :
  exists r,
    calculate_cit no_string_number cit_loss_medium_example false = Ok r
    /\ Cit.cit_payable r < 0.
Proof.
  destruct (calculate_cit_payable no_string_number cit_loss_medium_example false)
    as (r & Hr & _ & _ & _ & Hrate & Hneg & _).
  - vm_compute. reflexivity.
  - exists r. split; [exact Hr |].
    apply Hneg; [| apply Hrate]; vm_compute; reflexivity.
Defined.

(** * The comparator *)

Lemma recommend_new (net_diff : Q) :
  recommend net_diff = "Better under NEW law" <-> 0 < net_diff.
Proof.
  unfold recommend. destruct (Qgt_bool net_diff 0) eqn:E; bool_to_Q.
  - split; [intros _; exact E | reflexivity].
  - split; [discriminate | intros H; exfalso; lra].
Qed.

Lemma recommend_old (net_diff : Q) :
  recommend net_diff = "Better under OLD law" <-> net_diff <= 0.
Proof.
  unfold recommend. destruct (Qgt_bool net_diff 0) eqn:E; bool_to_Q.
  - split; [discriminate | intros H; exfalso; lra].
  - split; [intros _; exact E | reflexivity].
Qed.

Lemma not_pit_tax_type (tax_type : option pyval) :
  tax_type <> Some (PyStr "PIT") ->
  py_eq_str (default PyNone tax_type) "PIT" = false.
Proof.
  intros H. destruct tax_type as [[] |]; simpl; try reflexivity.
  apply bool_decide_eq_false. intros ->. apply H. reflexivity.
Qed.

(** [calculate_cit] reads the turnover and the profit only. *)
Lemma calculate_cit_tax_type (str_to_float : string -> option Q)
    (data : gmap string pyval) (tax_type : pyval) (use_old_law : bool) :
  calculate_cit str_to_float (<["tax_type" := tax_type]> data) use_old_law
  = calculate_cit str_to_float data use_old_law.
Proof.
  unfold calculate_cit, get_float.
  rewrite !lookup_insert_ne by discriminate. reflexivity.
Qed.

(** The answer to a request that is not a PIT request. *)
Lemma calculate_cit_branch (str_to_float : string -> option Q)
    (data : gmap string pyval) :
  data !! "tax_type" <> Some (PyStr "PIT") ->
  numeric_fields cit_fields data = true ->
  exists old new comparison,
    calculate str_to_float data = Ok (CitResponse old new comparison)
    /\ calculate_cit str_to_float data true = Ok old
    /\ calculate_cit str_to_float data false = Ok new
    /\ CitComparison.tax_difference comparison
       = Cit.cit_payable new - Cit.cit_payable old
    /\ CitComparison.net_profit_difference comparison
       = Cit.net_profit new - Cit.net_profit old
    /\ CitComparison.monthly_profit_difference comparison
       = Cit.monthly_net_profit new - Cit.monthly_net_profit old
    /\ CitComparison.recommendation comparison
       = recommend (CitComparison.net_profit_difference comparison).
Proof.
  intros Htype Hn.
  destruct (calculate_cit_numeric str_to_float data true Hn)
    as (old & ? & Ho & _).
  destruct (calculate_cit_numeric str_to_float data false Hn)
    as (new & ? & Hnew & _).
  unfold calculate. rewrite (not_pit_tax_type _ Htype), Ho, Hnew. simpl.
  eexists. eexists. eexists. repeat split.
Qed.

(** The answer to a PIT request. *)
Lemma calculate_pit_branch (str_to_float : string -> option Q)
    (data : gmap string pyval) :
  data !! "tax_type" = Some (PyStr "PIT") ->
  numeric_fields pit_fields data = true ->
  exists old new comparison,
    calculate str_to_float data = Ok (PitResponse old new comparison)
    /\ calculate_pit str_to_float data true = Ok old
    /\ calculate_pit str_to_float data false = Ok new
    /\ PitComparison.tax_difference comparison
       = Pit.total_tax new - Pit.total_tax old
    /\ PitComparison.net_income_difference comparison
       = Pit.net_income new - Pit.net_income old
    /\ PitComparison.monthly_take_home_difference comparison
       = Pit.monthly_take_home new - Pit.monthly_take_home old
    /\ PitComparison.recommendation comparison
       = recommend (PitComparison.net_income_difference comparison).
Proof.
  intros Htype Hn.
  destruct (calculate_pit_numeric str_to_float data true Hn)
    as (old & Ho & _).
  destruct (calculate_pit_numeric str_to_float data false Hn)
    as (new & Hnew & _).
  unfold calculate. rewrite Htype, Ho, Hnew. simpl.
  eexists. eexists. eexists. repeat split.
Qed.

(** C4.  For a request with numeric fields, the comparator runs the
    calculator of the tax type on the same request under OLD and under NEW.
    The tax difference is the new total tax minus the old one (the CIT
    payable for CIT), the net difference is the new net income (net profit)
    minus the old one, and the recommendation is "Better under NEW law"
    exactly when the net difference is positive and "Better under OLD law"
    otherwise, in particular when the net difference is 0. *)
Theorem calculate_comparison (str_to_float : string -> option Q)
    (data : gmap string pyval) :
  numeric_fields pit_fields data = true ->
  numeric_fields cit_fields data = true ->
  (data !! "tax_type" = Some (PyStr "PIT") ->
   exists old new comparison,
     calculate str_to_float data = Ok (PitResponse old new comparison)
     /\ calculate_pit str_to_float data true = Ok old
     /\ calculate_pit str_to_float data false = Ok new
     /\ PitComparison.tax_difference comparison
        == Pit.total_tax new - Pit.total_tax old
     /\ PitComparison.net_income_difference comparison
        == Pit.net_income new - Pit.net_income old
     /\ (PitComparison.recommendation comparison = "Better under NEW law"
         <-> 0 < PitComparison.net_income_difference comparison)
     /\ (PitComparison.recommendation comparison = "Better under OLD law"
         <-> PitComparison.net_income_difference comparison <= 0)
     /\ (PitComparison.net_income_difference comparison == 0 ->
         PitComparison.recommendation comparison = "Better under OLD law"))
  /\ (data !! "tax_type" = Some (PyStr "CIT") ->
      exists old new comparison,
        calculate str_to_float data = Ok (CitResponse old new comparison)
        /\ calculate_cit str_to_float data true = Ok old
        /\ calculate_cit str_to_float data false = Ok new
        /\ CitComparison.tax_difference comparison
           == Cit.cit_payable new - Cit.cit_payable old
        /\ CitComparison.net_profit_difference comparison
           == Cit.net_profit new - Cit.net_profit old
        /\ (CitComparison.recommendation comparison = "Better under NEW law"
            <-> 0 < CitComparison.net_profit_difference comparison)
        /\ (CitComparison.recommendation comparison = "Better under OLD law"
            <-> CitComparison.net_profit_difference comparison <= 0)
        /\ (CitComparison.net_profit_difference comparison == 0 ->
            CitComparison.recommendation comparison = "Better under OLD law")).
Proof.
  intros Hpit Hcit. split; intros Htype.
  - destruct (calculate_pit_branch str_to_float data Htype Hpit)
      as (old & new & c & Hc & Ho & Hn & Ht & Hd & _ & Hrec).
    exists old, new, c. repeat (split; [assumption |]).
    rewrite Ht, Hd, Hrec, Hd.
    split; [reflexivity |]. split; [reflexivity |].
    split; [apply recommend_new |]. split; [apply recommend_old |].
    intros E. apply recommend_old. rewrite E. apply Qle_refl.
  - assert (Hnp : data !! "tax_type" <> Some (PyStr "PIT"))
      by (rewrite Htype; discriminate).
    destruct (calculate_cit_branch str_to_float data Hnp Hcit)
      as (old & new & c & Hc & Ho & Hn & Ht & Hd & _ & Hrec).
    exists old, new, c. repeat (split; [assumption |]).
    rewrite Ht, Hd, Hrec, Hd.
    split; [reflexivity |]. split; [reflexivity |].
    split; [apply recommend_new |]. split; [apply recommend_old |].
    intros E. apply recommend_old. rewrite E. apply Qle_refl.
Qed.

Lemma calculate_comparison_witness :
  exists old new comparison,
    calculate no_string_number cit_example
    = Ok (CitResponse old new comparison)
    /\ CitComparison.net_profit_difference comparison
       == Cit.net_profit new - Cit.net_profit old
    /\ (CitComparison.recommendation comparison = "Better under NEW law"
        <-> 0 < CitComparison.net_profit_difference comparison).
Proof.
  destruct (calculate_comparison no_string_number cit_example) as [_ Hcit].
  - vm_compute. reflexivity.
  - vm_compute. reflexivity.
  - destruct Hcit as (old & new & c & Hc & _ & _ & _ & Hd & Hrec & _).
    + vm_compute. reflexivity.
    + exists old, new, c. repeat split; try assumption; apply Hrec.
Defined.

Example cit_example_comparison :
  exists old new comparison,
    calculate no_string_number cit_example
    = Ok (CitResponse old new comparison)
    /\ CitComparison.tax_difference comparison == - 200000
    /\ CitComparison.net_profit_difference comparison == 200000
    /\ CitComparison.recommendation comparison = "Better under NEW law".
Proof.
  eexists. eexists. eexists. split; [vm_compute; reflexivity |].
  repeat split.
Qed.

(** A PIT request without any income: the net difference is exactly 0. *)
Example pit_tie_comparison :
  exists old new comparison,
    calculate no_string_number {[ "tax_type" := PyStr "PIT" ]}
    = Ok (PitResponse old new comparison)
    /\ PitComparison.net_income_difference comparison == 0
    /\ PitComparison.recommendation comparison = "Better under OLD law".
Proof.
  eexists. eexists. eexists. split; [vm_compute; reflexivity |].
  repeat split.
Qed.

(** * Requests of another tax type *)

(** C7, as stated, fails: the request with tax type "VAT" is answered, with
    the CIT comparison of its turnover and profit; [calculate] raises no
    error on it. *)
Lemma calculate_vat_answered :
  vat_example !! "tax_type" = Some (PyStr "VAT")
  /\ (forall e, calculate no_string_number vat_example <> Err e)
  /\ exists old new comparison,
       calculate no_string_number vat_example
       = Ok (CitResponse old new comparison)
       /\ Cit.cit_payable old == 2000000
       /\ Cit.cit_payable new == 1800000
       /\ CitComparison.recommendation comparison = "Better under NEW law".
Proof.
  split; [vm_compute; reflexivity |]. split.
  - intros e. vm_compute. discriminate.
  - eexists. eexists. eexists. split; [vm_compute; reflexivity |].
    repeat split.
Qed.

(** C7, amended.  For every request whose tax-type discriminator is not PIT
    (CIT, any other value, or none at all), [calculate] does exactly what it
    does on the same request with the discriminator CIT; with a numeric
    turnover and profit it answers with the CIT comparison of the request
    under OLD and NEW.  The handler has no error for an unknown tax type. *)
Theorem calculate_not_pit (str_to_float : string -> option Q)
    (data : gmap string pyval) :
  data !! "tax_type" <> Some (PyStr "PIT") ->
  calculate str_to_float data
  = calculate str_to_float (<["tax_type" := PyStr "CIT"]> data)
  /\ (numeric_fields cit_fields data = true ->
      exists old new comparison,
        calculate str_to_float data = Ok (CitResponse old new comparison)
        /\ calculate_cit str_to_float data true = Ok old
        /\ calculate_cit str_to_float data false = Ok new).
Proof.
  intros Htype. split.
  - unfold calculate.
    rewrite (not_pit_tax_type _ Htype), lookup_insert_eq,
      !calculate_cit_tax_type.
    reflexivity.
  - intros Hn.
    destruct (calculate_cit_branch str_to_float data Htype Hn)
      as (old & new & c & Hc & Ho & Hnew & _).
    exists old, new, c. repeat split; assumption.
Qed.

Lemma calculate_not_pit_witness :
  calculate no_string_number vat_example
  = calculate no_string_number (<["tax_type" := PyStr "CIT"]> vat_example).
Proof.
  apply (calculate_not_pit no_string_number vat_example).
  vm_compute. discriminate.
Defined.

(** * Further properties of the bracket engine *)

Lemma positive_slices_nonneg (amount : Q) (table : list bracket) :
  Forall (fun br => 0 <= snd br /\ snd br <= 1) table ->
  forall prev, 0 <= positive_slices amount prev table.
Proof.
  intros Hrates.
  induction Hrates as [| [limit rate] rest [Hr0 Hr1] _ IH]; intros prev;
    simpl in *; [lra |].
  specialize (IH limit).
  match goal with
  | |- context [Qgt_bool ?s 0] => destruct (Qgt_bool s 0) eqn:E
  end; bool_to_Q; nra.
Qed.

(** The tax-free band of the NEW table ends at 800,000. *)
Lemma tax_new_zero_iff (amount : Q) :
  calculate_progressive_tax amount PIT_BRACKETS_NEW == 0 <-> amount <= 800000.
Proof.
  unfold calculate_progressive_tax, PIT_BRACKETS_NEW. simpl.
  repeat match goal with
  | |- context [Qle_bool ?x ?y] => destruct (Qle_bool x y) eqn:?
  end; bool_to_Q;
  repeat match goal with
  | |- context [Qmin ?x ?y] => split_min x y
  end; split; intros; lra.
Qed.

(** The OLD table taxes every positive amount. *)
Lemma tax_old_zero_iff (amount : Q) :
  calculate_progressive_tax amount PIT_BRACKETS_OLD == 0 <-> amount <= 0.
Proof.
  unfold calculate_progressive_tax, PIT_BRACKETS_OLD. simpl.
  repeat match goal with
  | |- context [Qle_bool ?x ?y] => destruct (Qle_bool x y) eqn:?
  end; bool_to_Q;
  repeat match goal with
  | |- context [Qmin ?x ?y] => split_min x y
  end; split; intros; lra.
Qed.

(** X1.  On a valid bracket table the progressive tax is never negative,
    whatever the amount, and it is 0 for every amount that is not
    positive. *)
Theorem progressive_tax_nonnegative (amount : Q) (table : list bracket) :
  valid_table table = true ->
  0 <= calculate_progressive_tax amount table
  /\ (amount <= 0 -> calculate_progressive_tax amount table == 0).
Proof.
  intros Hv. split.
  - rewrite calculate_progressive_tax_slices by exact Hv.
    apply positive_slices_nonneg, valid_table_rates, Hv.
  - intros Ha. unfold calculate_progressive_tax.
    rewrite progressive_loop_stop; [reflexivity |].
    apply Qle_bool_iff, Ha.
Qed.

Lemma progressive_tax_nonnegative_witness :
  0 <= calculate_progressive_tax (-5) PIT_BRACKETS_OLD
  /\ calculate_progressive_tax (-5) PIT_BRACKETS_OLD == 0.
Proof.
  destruct (progressive_tax_nonnegative (-5) PIT_BRACKETS_OLD) as [H0 Hz].
  - vm_compute. reflexivity.
  - split; [exact H0 |]. apply Hz. vm_compute. discriminate.
Defined.

(** X3.  For a positive amount that lies above every bound of the finite
    brackets [front] and not above the bound of the next bracket, the tax is
    the full width of each bracket of [front] at its rate, plus what of the
    amount lies above the last bound of [front] at the rate of that next
    bracket; the brackets after it add nothing. *)
Theorem progressive_tax_within_bracket (amount rate : Q) (limit : bound)
    (front : list (Q * Q)) (rest : list bracket) :
  0 < amount ->
  Forall (fun br => fst br < amount) front ->
  le_bound amount limit = true ->
  calculate_progressive_tax amount
    (map fin_bracket front ++ (limit, rate) :: rest)
  == full_brackets 0 front + (amount - last_finite_bound front) * rate.
Proof.
  intros Ha Hfront Hlimit.
  unfold calculate_progressive_tax, last_finite_bound.
  rewrite (progressive_loop_within amount rate limit rest front Hlimit Hfront
             0 0 Ha).
  lra.
Qed.

Lemma progressive_tax_within_bracket_witness :
  calculate_progressive_tax 5000000 PIT_BRACKETS_NEW
  == full_brackets 0 [ (800000, 0); (3200000, 15 # 100) ]
     + (5000000 - 3200000) * (25 # 100).
Proof.
  apply (progressive_tax_within_bracket 5000000 (25 # 100) (Fin 7200000)
           [ (800000, 0); (3200000, 15 # 100) ]
           [ (Fin 12200000, 30 # 100); (Fin 22200000, 35 # 100);
             (PInf, 40 # 100) ]).
  - vm_compute. reflexivity.
  - repeat constructor.
  - vm_compute. reflexivity.
Defined.

(** * Requests whose fields convert *)

Section ReadableFacts.

Variable str_to_float : string -> option Q.

Lemma get_float_readable (keys : list string) (data : gmap string pyval)
    (key : string) :
  readable str_to_float keys data = true -> In key keys ->
  get_float str_to_float data key = Ok (field str_to_float data key).
Proof.
  unfold readable. rewrite forallb_forall. intros H Hin.
  specialize (H key Hin). unfold field.
  destruct (get_float str_to_float data key); [reflexivity | discriminate].
Qed.

Lemma nonnegative_readable (keys : list string) (data : gmap string pyval) :
  nonnegative str_to_float keys data = true ->
  readable str_to_float keys data = true.
Proof.
  unfold nonnegative, readable. rewrite !forallb_forall.
  intros H key Hin. specialize (H key Hin).
  destruct (get_float str_to_float data key); [reflexivity | discriminate].
Qed.

Lemma nonnegative_field (keys : list string) (data : gmap string pyval)
    (key : string) :
  nonnegative str_to_float keys data = true -> In key keys ->
  0 <= field str_to_float data key.
Proof.
  unfold nonnegative. rewrite forallb_forall. intros H Hin.
  specialize (H key Hin). unfold field.
  destruct (get_float str_to_float data key); [| discriminate].
  apply Qle_bool_iff, H.
Qed.

(** Fields that are numbers or absent convert, to the numbers they are. *)
Lemma numeric_fields_readable (keys : list string) (data : gmap string pyval) :
  numeric_fields keys data = true ->
  readable str_to_float keys data = true.
Proof.
  unfold numeric_fields, readable. rewrite !forallb_forall.
  intros H key Hin. specialize (H key Hin).
  unfold number_or_absent, get_float in *.
  destruct (data !! key) as [[] |]; simpl; try discriminate; reflexivity.
Qed.

(** What [calculate_pit] returns when its nine fields convert. *)
Lemma calculate_pit_readable (data : gmap string pyval) (use_old_law : bool) :
  readable str_to_float pit_fields data = true ->
  exists r,
    calculate_pit str_to_float data use_old_law = Ok r
    /\ Pit.law r = (if use_old_law then "OLD" else "NEW")
    /\ Pit.housing_raw r = field str_to_float data "housing_allowance"
    /\ Pit.housing_allowance_capped r
       = (if use_old_law then field str_to_float data "housing_allowance"
          else Qmin (field str_to_float data "housing_allowance")
                 HOUSING_ALLOWANCE_CAP)
    /\ Pit.gross_income r
       = field str_to_float data "basic_salary"
         + Pit.housing_allowance_capped r
         + field str_to_float data "transport_allowance"
         + field str_to_float data "other_allowances"
    /\ Pit.cra r
       = (if use_old_law then 1 # 100 else 20 # 100) * Pit.gross_income r
         + 200000
    /\ Pit.taxable_income r
       = Qmax 0 (Pit.gross_income r - Pit.cra r
                 - (field str_to_float data "pension"
                    + field str_to_float data "nhf"
                    + field str_to_float data "life_insurance"))
    /\ Pit.annual_paye r
       = calculate_progressive_tax (Pit.taxable_income r)
           (if use_old_law then PIT_BRACKETS_OLD else PIT_BRACKETS_NEW)
    /\ Pit.monthly_paye r = Pit.annual_paye r / 12
    /\ Pit.capital_gains_tax r
       = (field str_to_float data "capital_gains"
          + field str_to_float data "digital_assets")
         * (if use_old_law then CGT_RATE_OLD else CGT_RATE_NEW)
    /\ Pit.total_tax r = Pit.annual_paye r + Pit.capital_gains_tax r
    /\ Pit.net_income r
       = Pit.gross_income r + field str_to_float data "capital_gains"
         + field str_to_float data "digital_assets" - Pit.total_tax r
    /\ Pit.monthly_take_home r = Pit.net_income r / 12
    /\ Pit.first_tax_free r = (if use_old_law then 0 else 800000).
Proof.
  intros H. unfold calculate_pit.
  rewrite !(get_float_readable pit_fields data _ H) by in_fields.
  destruct use_old_law; simpl; eexists; (split; [reflexivity |]);
    simpl; repeat split; reflexivity.
Qed.

(** [calculate_pit] returns only when its nine fields convert. *)
Lemma calculate_pit_ok_readable (data : gmap string pyval)
    (use_old_law : bool) (r : Pit.result) :
  calculate_pit str_to_float data use_old_law = Ok r ->
  readable str_to_float pit_fields data = true.
Proof.
  unfold calculate_pit, readable, pit_fields. simpl.
  repeat match goal with
  | |- context [get_float ?f ?d ?k] =>
      destruct (get_float f d k); simpl; [| discriminate]
  end.
  reflexivity.
Qed.

(** The exception of [calculate_pit] does not depend on the regime. *)
Lemma calculate_pit_error_regime (data : gmap string pyval) (e : pyerr) :
  calculate_pit str_to_float data true = Err e
  <-> calculate_pit str_to_float data false = Err e.
Proof.
  unfold calculate_pit.
  repeat match goal with
  | |- context [get_float ?f ?d ?k] =>
      destruct (get_float f d k); simpl; [| reflexivity]
  end.
  split; discriminate.
Qed.

(** What [calculate_cit] returns when turnover and profit convert. *)
Lemma calculate_cit_readable (data : gmap string pyval) (use_old_law : bool) :
  readable str_to_float cit_fields data = true ->
  exists r rate,
    calculate_cit str_to_float data use_old_law = Ok r
    /\ Cit.turnover r = field str_to_float data "turnover"
    /\ Cit.profit r = field str_to_float data "profit"
    /\ Cit.cit_rate r = rate * 100
    /\ Cit.cit_payable r = field str_to_float data "profit" * rate
    /\ Cit.net_profit r = field str_to_float data "profit" - Cit.cit_payable r
    /\ Cit.monthly_net_profit r = Cit.net_profit r / 12
    /\ let small := if use_old_law then 25000000 else 50000000 in
       let medium := if use_old_law then 100000000 else 150000000 in
       (field str_to_float data "turnover" <= small /\ rate = 0)
       \/ (small < field str_to_float data "turnover" /\
           field str_to_float data "turnover" <= medium /\
           rate = (if use_old_law then 20 # 100 else 18 # 100))
       \/ (medium < field str_to_float data "turnover" /\
           rate = (if use_old_law then 30 # 100 else 25 # 100)).
Proof.
  intros H. unfold calculate_cit.
  rewrite !(get_float_readable cit_fields data _ H) by in_fields.
  simpl.
  destruct use_old_law;
    repeat match goal with
    | |- context [Qle_bool ?x ?y] => destruct (Qle_bool x y) eqn:?
    end; simpl; eexists; eexists; (split; [reflexivity |]); simpl;
    repeat (split; [reflexivity |]); bool_to_Q;
    [ left | right; left | right; right | left | right; left | right; right ];
    repeat split; try reflexivity; lra.
Qed.

Lemma calculate_cit_ok_readable (data : gmap string pyval)
    (use_old_law : bool) (r : Cit.result) :
  calculate_cit str_to_float data use_old_law = Ok r ->
  readable str_to_float cit_fields data = true.
Proof.
  unfold calculate_cit, readable, cit_fields. simpl.
  repeat match goal with
  | |- context [get_float ?f ?d ?k] =>
      destruct (get_float f d k); simpl; [| discriminate]
  end.
  reflexivity.
Qed.

Lemma calculate_cit_error_regime (data : gmap string pyval) (e : pyerr) :
  calculate_cit str_to_float data true = Err e
  <-> calculate_cit str_to_float data false = Err e.
Proof.
  unfold calculate_cit.
  repeat match goal with
  | |- context [get_float ?f ?d ?k] =>
      destruct (get_float f d k); simpl; [| reflexivity]
  end.
  repeat match goal with
  | |- context [Qle_bool ?x ?y] => destruct (Qle_bool x y)
  end; split; discriminate.
Qed.

End ReadableFacts.

(** [calculate_pit] sees of a request only what its nine fields convert
    to. *)
Lemma calculate_pit_same_fields (str_to_float str_to_float' : string -> option Q)
    (data data' : gmap string pyval) (use_old_law : bool) :
  (forall key, In key pit_fields ->
     get_float str_to_float' data' key = get_float str_to_float data key) ->
  calculate_pit str_to_float' data' use_old_law
  = calculate_pit str_to_float data use_old_law.
Proof.
  intros H. unfold calculate_pit.
  rewrite !H by in_fields. reflexivity.
Qed.

(** [calculate_cit] sees of a request only what turnover and profit convert
    to. *)
Lemma calculate_cit_same_fields (str_to_float str_to_float' : string -> option Q)
    (data data' : gmap string pyval) (use_old_law : bool) :
  (forall key, In key cit_fields ->
     get_float str_to_float' data' key = get_float str_to_float data key) ->
  calculate_cit str_to_float' data' use_old_law
  = calculate_cit str_to_float data use_old_law.
Proof.
  intros H. unfold calculate_cit.
  rewrite !H by in_fields. reflexivity.
Qed.

(** Writing into a request a value that converts as the field did before
    changes no conversion. *)
Lemma get_float_insert (str_to_float : string -> option Q)
    (data : gmap string pyval) (key key' : string) (v : pyval) :
  (key' = key -> py_float str_to_float v = get_float str_to_float data key) ->
  get_float str_to_float (<[key := v]> data) key'
  = get_float str_to_float data key'.
Proof.
  intros H. unfold get_float at 1.
  destruct (decide (key = key')) as [<- | Hne].
  - rewrite lookup_insert_eq. simpl. apply H. reflexivity.
  - rewrite lookup_insert_ne by exact Hne. reflexivity.
Qed.

Lemma get_float_delete (str_to_float : string -> option Q)
    (data : gmap string pyval) (key key' : string) :
  key' <> key ->
  get_float str_to_float (delete key data) key'
  = get_float str_to_float data key'.
Proof.
  intros H. unfold get_float. rewrite lookup_delete_ne by congruence.
  reflexivity.
Qed.

(** On a valid table the tax of an amount that is not negative lies between
    0 and the amount. *)
Lemma calculate_progressive_tax_range (amount : Q) (table : list bracket) :
  valid_table table = true -> 0 <= amount ->
  0 <= calculate_progressive_tax amount table <= amount.
Proof.
  intros Hv Ha. split.
  - rewrite calculate_progressive_tax_slices by exact Hv.
    apply positive_slices_nonneg, valid_table_rates, Hv.
  - apply calculate_progressive_tax_le; assumption.
Qed.

(** * Further properties of the PIT calculator *)

(** X4.  The [first_tax_free] entry of a PIT result, 0 under OLD and 800,000
    under NEW, is the taxable income up to which no PAYE is due: the annual
    PAYE is 0 exactly when the taxable income does not exceed it, and the
    total tax is then the capital-gains tax alone. *)
Theorem calculate_pit_first_tax_free (str_to_float : string -> option Q)
    (data : gmap string pyval) (use_old_law : bool) :
  readable str_to_float pit_fields data = true ->
  exists r,
    calculate_pit str_to_float data use_old_law = Ok r
    /\ Pit.first_tax_free r == (if use_old_law then 0 else 800000)
    /\ (Pit.annual_paye r == 0
        <-> Pit.taxable_income r <= Pit.first_tax_free r)
    /\ (Pit.taxable_income r <= Pit.first_tax_free r ->
        Pit.total_tax r == Pit.capital_gains_tax r).
Proof.
  intros Hread.
  destruct (calculate_pit_readable str_to_float data use_old_law Hread)
    as (r & Hr & _ & _ & _ & _ & _ & _ & Hp & _ & _ & Htot & _ & _ & Hfree).
  exists r. split; [exact Hr |].
  assert (Hiff : Pit.annual_paye r == 0
                 <-> Pit.taxable_income r <= Pit.first_tax_free r).
  { rewrite Hp, Hfree.
    destruct use_old_law; [apply tax_old_zero_iff | apply tax_new_zero_iff]. }
  split; [rewrite Hfree; destruct use_old_law; reflexivity |].
  split; [exact Hiff |].
  intros Hle. apply Hiff in Hle. rewrite Htot, Hle. lra.
Qed.

Lemma calculate_pit_first_tax_free_witness :
  exists r,
    calculate_pit sample_float (payload "PIT" pit_form) false = Ok r
    /\ (Pit.annual_paye r == 0 <-> Pit.taxable_income r <= Pit.first_tax_free r).
Proof.
  destruct (calculate_pit_first_tax_free sample_float
              (payload "PIT" pit_form) false) as (r & Hr & _ & Hiff & _).
  - vm_compute. reflexivity.
  - exists r. split; [exact Hr | exact Hiff].
Defined.

(** X5.  [calculate_pit] sees of a request only what its nine fields convert
    to: writing or deleting any other key changes nothing, and neither does
    replacing a string by the number it is read as, or a boolean by 1 or
    0. *)
Theorem calculate_pit_reads_nine_fields (str_to_float : string -> option Q)
    (data : gmap string pyval) (use_old_law : bool) :
  (forall key v,
     ~ In key pit_fields ->
     calculate_pit str_to_float (<[key := v]> data) use_old_law
     = calculate_pit str_to_float data use_old_law)
  /\ (forall key,
        ~ In key pit_fields ->
        calculate_pit str_to_float (delete key data) use_old_law
        = calculate_pit str_to_float data use_old_law)
  /\ (forall key s q,
        data !! key = Some (PyStr s) -> str_to_float s = Some q ->
        calculate_pit str_to_float (<[key := PyNum q]> data) use_old_law
        = calculate_pit str_to_float data use_old_law)
  /\ (forall key b,
        data !! key = Some (PyBool b) ->
        calculate_pit str_to_float
          (<[key := PyNum (if b then 1 else 0)]> data) use_old_law
        = calculate_pit str_to_float data use_old_law).
Proof.
  repeat split.
  - intros key v Hout. apply calculate_pit_same_fields. intros key' Hin.
    apply get_float_insert. intros ->. contradiction.
  - intros key Hout. apply calculate_pit_same_fields. intros key' Hin.
    apply get_float_delete. intros ->. contradiction.
  - intros key s q Hs Hq. apply calculate_pit_same_fields. intros key' _.
    apply get_float_insert. intros _. unfold get_float.
    rewrite Hs. simpl. rewrite Hq. reflexivity.
  - intros key b Hb. apply calculate_pit_same_fields. intros key' _.
    apply get_float_insert. intros _. unfold get_float.
    rewrite Hb. reflexivity.
Qed.

Lemma calculate_pit_reads_nine_fields_witness :
  calculate_pit sample_float
    (<["basic_salary" := PyNum 1000000]> (payload "PIT" pit_form)) false
  = calculate_pit sample_float (payload "PIT" pit_form) false.
Proof.
  destruct (calculate_pit_reads_nine_fields sample_float
              (payload "PIT" pit_form) false) as (_ & _ & Hstr & _).
  apply (Hstr "basic_salary" "1000000" 1000000).
  - vm_compute. reflexivity.
  - vm_compute. reflexivity.
Defined.

(** X6.  [calculate_pit] returns a result exactly when each of its nine
    fields converts; otherwise it raises, the same exception under both
    regimes.  A [null] in any of the nine fields makes it raise, and a
    [null] basic salary, the first field read, raises [TypeError]. *)
Theorem calculate_pit_raises (str_to_float : string -> option Q)
    (data : gmap string pyval) (use_old_law : bool) :
  ((exists r, calculate_pit str_to_float data use_old_law = Ok r)
   <-> readable str_to_float pit_fields data = true)
  /\ (forall e,
        calculate_pit str_to_float data true = Err e
        <-> calculate_pit str_to_float data false = Err e)
  /\ (forall key,
        In key pit_fields -> data !! key = Some PyNone ->
        exists e, calculate_pit str_to_float data use_old_law = Err e)
  /\ (data !! "basic_salary" = Some PyNone ->
      calculate_pit str_to_float data use_old_law = Err TypeError).
Proof.
  repeat split.
  - intros [r Hr]. apply (calculate_pit_ok_readable _ _ _ _ Hr).
  - intros Hread.
    destruct (calculate_pit_readable str_to_float data use_old_law Hread)
      as (r & Hr & _).
    exists r. exact Hr.
  - apply calculate_pit_error_regime.
  - apply calculate_pit_error_regime.
  - intros key Hin Hnull.
    destruct (calculate_pit str_to_float data use_old_law) as [r | e] eqn:E;
      [| exists e; reflexivity].
    apply calculate_pit_ok_readable in E.
    pose proof (get_float_readable str_to_float _ _ key E Hin) as Hget.
    unfold get_float in Hget. rewrite Hnull in Hget. discriminate Hget.
  - intros Hnull.
    assert (E : get_float str_to_float data "basic_salary" = Err TypeError)
      by (unfold get_float; rewrite Hnull; reflexivity).
    unfold calculate_pit. rewrite E. reflexivity.
Qed.

Lemma calculate_pit_raises_witness :
  exists e,
    calculate_pit sample_float {[ "pension" := PyNone ]} true = Err e.
Proof.
  destruct (calculate_pit_raises sample_float {[ "pension" := PyNone ]} true)
    as (_ & _ & Hnull & _).
  apply (Hnull "pension").
  - simpl. tauto.
  - vm_compute. reflexivity.
Defined.

(** X7.  When the nine fields convert to numbers that are not negative,
    [calculate_pit] returns, under either regime, a result in which nothing
    is negative and no tax exceeds its base: the taxable income is at most
    the gross income, the annual PAYE at most the taxable income, the
    capital-gains tax at most the gains, and total tax and net income each
    at most gross income plus gains. *)
Theorem calculate_pit_within_income (str_to_float : string -> option Q)
    (data : gmap string pyval) (use_old_law : bool) :
  nonnegative str_to_float pit_fields data = true ->
  exists r,
    calculate_pit str_to_float data use_old_law = Ok r
    /\ 0 <= Pit.gross_income r
    /\ 0 <= Pit.taxable_income r <= Pit.gross_income r
    /\ 0 <= Pit.annual_paye r <= Pit.taxable_income r
    /\ 0 <= Pit.capital_gains_tax r
       <= field str_to_float data "capital_gains"
          + field str_to_float data "digital_assets"
    /\ 0 <= Pit.total_tax r
       <= Pit.gross_income r + field str_to_float data "capital_gains"
          + field str_to_float data "digital_assets"
    /\ 0 <= Pit.net_income r
       <= Pit.gross_income r + field str_to_float data "capital_gains"
          + field str_to_float data "digital_assets".
Proof.
  intros Hnn.
  pose proof (nonnegative_readable _ _ _ Hnn) as Hread.
  destruct (calculate_pit_readable str_to_float data use_old_law Hread)
    as (r & Hr & _ & _ & Hh & Hg & Hc & Ht & Hp & _ & Hcgt & Htot & Hnet & _).
  exists r. split; [exact Hr |].
  assert (Hf : forall key, In key pit_fields -> 0 <= field str_to_float data key)
    by (intros key; apply nonnegative_field, Hnn).
  pose proof (Hf "basic_salary" ltac:(in_fields)) as Hbasic.
  pose proof (Hf "housing_allowance" ltac:(in_fields)) as Hhousing.
  pose proof (Hf "transport_allowance" ltac:(in_fields)) as Htransport.
  pose proof (Hf "other_allowances" ltac:(in_fields)) as Hothers.
  pose proof (Hf "pension" ltac:(in_fields)) as Hpension.
  pose proof (Hf "nhf" ltac:(in_fields)) as Hnhf.
  pose proof (Hf "life_insurance" ltac:(in_fields)) as Hlife.
  pose proof (Hf "capital_gains" ltac:(in_fields)) as Hcg.
  pose proof (Hf "digital_assets" ltac:(in_fields)) as Hda.
  assert (Hcap : 0 <= Pit.housing_allowance_capped r).
  { rewrite Hh. destruct use_old_law; [exact Hhousing |].
    unfold HOUSING_ALLOWANCE_CAP.
    split_min (field str_to_float data "housing_allowance") 500000; lra. }
  assert (Hgross : 0 <= Pit.gross_income r) by (rewrite Hg; lra).
  assert (Hcra : 0 <= Pit.cra r) by (rewrite Hc; destruct use_old_law; lra).
  assert (Htax : 0 <= Pit.taxable_income r <= Pit.gross_income r).
  { rewrite Ht.
    match goal with |- context [Qmax 0 ?x] => split_max 0 x end; lra. }
  assert (Hpaye : 0 <= Pit.annual_paye r <= Pit.taxable_income r).
  { rewrite Hp. apply calculate_progressive_tax_range; [| apply Htax].
    destruct use_old_law; reflexivity. }
  assert (Hgains : 0 <= Pit.capital_gains_tax r
                   <= field str_to_float data "capital_gains"
                      + field str_to_float data "digital_assets").
  { rewrite Hcgt. unfold CGT_RATE_OLD, CGT_RATE_NEW.
    destruct use_old_law; lra. }
  rewrite Hnet, Htot. repeat split; lra.
Qed.

Lemma calculate_pit_within_income_witness :
  exists r,
    calculate_pit sample_float (payload "PIT" pit_form) true = Ok r
    /\ 0 <= Pit.net_income r.
Proof.
  destruct (calculate_pit_within_income sample_float
              (payload "PIT" pit_form) true)
    as (r & Hr & _ & _ & _ & _ & _ & Hnet & _).
  - vm_compute. reflexivity.
  - exists r. split; [exact Hr | exact Hnet].
Defined.

(** X8.  On the same request, with fields that convert to numbers that are
    not negative, the NEW regime never has the higher gross income or the
    higher taxable income, the two gross incomes are equal when the housing
    allowance is within the cap of 500,000, and the capital-gains tax under
    NEW is twice the one under OLD. *)
Theorem calculate_pit_old_new (str_to_float : string -> option Q)
    (data : gmap string pyval) :
  nonnegative str_to_float pit_fields data = true ->
  exists r_old r_new,
    calculate_pit str_to_float data true = Ok r_old
    /\ calculate_pit str_to_float data false = Ok r_new
    /\ Pit.gross_income r_new <= Pit.gross_income r_old
    /\ (field str_to_float data "housing_allowance" <= 500000 ->
        Pit.gross_income r_new == Pit.gross_income r_old)
    /\ Pit.taxable_income r_new <= Pit.taxable_income r_old
    /\ Pit.capital_gains_tax r_new == 2 * Pit.capital_gains_tax r_old.
Proof.
  intros Hnn.
  pose proof (nonnegative_readable _ _ _ Hnn) as Hread.
  destruct (calculate_pit_readable str_to_float data true Hread)
    as (ro & Hro & _ & _ & Hho & Hgo & Hco & Hto & _ & _ & Hcgto & _).
  destruct (calculate_pit_readable str_to_float data false Hread)
    as (rn & Hrn & _ & _ & Hhn & Hgn & Hcn & Htn & _ & _ & Hcgtn & _).
  exists ro, rn. split; [exact Hro |]. split; [exact Hrn |].
  assert (Hf : forall key, In key pit_fields -> 0 <= field str_to_float data key)
    by (intros key; apply nonnegative_field, Hnn).
  pose proof (Hf "basic_salary" ltac:(in_fields)) as Hbasic.
  pose proof (Hf "housing_allowance" ltac:(in_fields)) as Hhousing.
  pose proof (Hf "transport_allowance" ltac:(in_fields)) as Htransport.
  pose proof (Hf "other_allowances" ltac:(in_fields)) as Hothers.
  unfold HOUSING_ALLOWANCE_CAP in Hhn.
  assert (Hgle : Pit.gross_income rn <= Pit.gross_income ro
                 /\ 0 <= Pit.gross_income rn).
  { rewrite Hgn, Hgo, Hhn, Hho.
    split_min (field str_to_float data "housing_allowance") 500000; lra. }
  destruct Hgle as [Hgle Hgn0].
  split; [exact Hgle |]. split; [| split].
  - intros Hcap. rewrite Hgn, Hgo, Hhn, Hho.
    split_min (field str_to_float data "housing_allowance") 500000; lra.
  - rewrite Htn, Hto, Hcn, Hco.
    repeat match goal with
    | |- context [Qmax 0 ?x] => split_max 0 x
    end; lra.
  - rewrite Hcgtn, Hcgto. unfold CGT_RATE_NEW, CGT_RATE_OLD. lra.
Qed.

Lemma calculate_pit_old_new_witness :
  exists r_old r_new,
    calculate_pit sample_float (payload "PIT" pit_form) true = Ok r_old
    /\ calculate_pit sample_float (payload "PIT" pit_form) false = Ok r_new
    /\ Pit.taxable_income r_new <= Pit.taxable_income r_old.
Proof.
  destruct (calculate_pit_old_new sample_float (payload "PIT" pit_form))
    as (ro & rn & Hro & Hrn & _ & _ & Ht & _).
  - vm_compute. reflexivity.
  - exists ro, rn. repeat split; assumption.
Defined.

(** * Further properties of the CIT calculator *)

(** X9.  [calculate_cit] reads the turnover and the profit and nothing else:
    writing any other key changes nothing.  It returns a result exactly when
    both convert, and otherwise raises the same exception under both
    regimes. *)
Theorem calculate_cit_reads_two_fields (str_to_float : string -> option Q)
    (data : gmap string pyval) (use_old_law : bool) :
  (forall key v,
     ~ In key cit_fields ->
     calculate_cit str_to_float (<[key := v]> data) use_old_law
     = calculate_cit str_to_float data use_old_law)
  /\ ((exists r, calculate_cit str_to_float data use_old_law = Ok r)
      <-> readable str_to_float cit_fields data = true)
  /\ (forall e,
        calculate_cit str_to_float data true = Err e
        <-> calculate_cit str_to_float data false = Err e).
Proof.
  repeat split.
  - intros key v Hout. apply calculate_cit_same_fields. intros key' Hin.
    apply get_float_insert. intros ->. contradiction.
  - intros [r Hr]. apply (calculate_cit_ok_readable _ _ _ _ Hr).
  - intros Hread.
    destruct (calculate_cit_readable str_to_float data use_old_law Hread)
      as (r & rate & Hr & _).
    exists r. exact Hr.
  - apply calculate_cit_error_regime.
  - apply calculate_cit_error_regime.
Qed.

Lemma calculate_cit_reads_two_fields_witness :
  calculate_cit sample_float (<["tax_type" := PyNone]> cit_example) true
  = calculate_cit sample_float cit_example true.
Proof.
  destruct (calculate_cit_reads_two_fields sample_float cit_example true)
    as (Hother & _).
  apply Hother. simpl. intros [H | [H | []]]; discriminate H.
Defined.

(** X10.  On the same request the CIT rate under NEW is never above the rate
    under OLD, the two are equal exactly when the turnover is at most
    25,000,000 (both are then 0), and no rate exceeds 30%.  So for a profit
    that is not negative the tax payable under NEW is between 0 and the tax
    payable under OLD, which is at most 30% of the profit, and the net
    profit under NEW is at least the one under OLD. *)
Theorem calculate_cit_old_new (str_to_float : string -> option Q)
    (data : gmap string pyval) :
  readable str_to_float cit_fields data = true ->
  exists r_old r_new,
    calculate_cit str_to_float data true = Ok r_old
    /\ calculate_cit str_to_float data false = Ok r_new
    /\ 0 <= Cit.cit_rate r_new <= Cit.cit_rate r_old
    /\ Cit.cit_rate r_old <= 30
    /\ (Cit.cit_rate r_new == Cit.cit_rate r_old
        <-> field str_to_float data "turnover" <= 25000000)
    /\ (0 <= field str_to_float data "profit" ->
        0 <= Cit.cit_payable r_new <= Cit.cit_payable r_old
        /\ Cit.cit_payable r_old
           <= (30 # 100) * field str_to_float data "profit"
        /\ Cit.net_profit r_old <= Cit.net_profit r_new
           <= field str_to_float data "profit").
Proof.
  intros Hread.
  destruct (calculate_cit_readable str_to_float data true Hread)
    as (ro & rate_o & Hro & _ & _ & Hrate_o & Hcit_o & Hnet_o & _ & Ht_o).
  destruct (calculate_cit_readable str_to_float data false Hread)
    as (rn & rate_n & Hrn & _ & _ & Hrate_n & Hcit_n & Hnet_n & _ & Ht_n).
  exists ro, rn. split; [exact Hro |]. split; [exact Hrn |].
  rewrite Hnet_o, Hnet_n, Hcit_o, Hcit_n, Hrate_o, Hrate_n.
  simpl in Ht_o, Ht_n.
  destruct Ht_o as [(? & ->) | [(? & ? & ->) | (? & ->)]];
    destruct Ht_n as [(? & ->) | [(? & ? & ->) | (? & ->)]];
    try (exfalso; lra);
    repeat split; try intros; try lra.
Qed.

Lemma calculate_cit_old_new_witness :
  exists r_old r_new,
    calculate_cit sample_float cit_example true = Ok r_old
    /\ calculate_cit sample_float cit_example false = Ok r_new
    /\ Cit.cit_payable r_new <= Cit.cit_payable r_old.
Proof.
  destruct (calculate_cit_old_new sample_float cit_example)
    as (ro & rn & Hro & Hrn & _ & _ & _ & Hprofit).
  - vm_compute. reflexivity.
  - exists ro, rn. split; [exact Hro |]. split; [exact Hrn |].
    apply Hprofit. vm_compute. discriminate.
Defined.

(** X11.  Under either regime the CIT rate never falls when the turnover
    grows: of two requests, the one with the larger turnover has the rate
    that is at least as high. *)
Theorem calculate_cit_rate_monotone (str_to_float : string -> option Q)
    (data data' : gmap string pyval) (use_old_law : bool) :
  readable str_to_float cit_fields data = true ->
  readable str_to_float cit_fields data' = true ->
  field str_to_float data "turnover" <= field str_to_float data' "turnover" ->
  exists r r',
    calculate_cit str_to_float data use_old_law = Ok r
    /\ calculate_cit str_to_float data' use_old_law = Ok r'
    /\ Cit.cit_rate r <= Cit.cit_rate r'.
Proof.
  intros Hread Hread' Hle.
  destruct (calculate_cit_readable str_to_float data use_old_law Hread)
    as (r & rate & Hr & _ & _ & Hrate & _ & _ & _ & Ht).
  destruct (calculate_cit_readable str_to_float data' use_old_law Hread')
    as (r' & rate' & Hr' & _ & _ & Hrate' & _ & _ & _ & Ht').
  exists r, r'. split; [exact Hr |]. split; [exact Hr' |].
  rewrite Hrate, Hrate'. simpl in Ht, Ht'.
  destruct use_old_law;
    destruct Ht as [(? & ->) | [(? & ? & ->) | (? & ->)]];
    destruct Ht' as [(? & ->) | [(? & ? & ->) | (? & ->)]];
    lra.
Qed.

Lemma calculate_cit_rate_monotone_witness :
  exists r r',
    calculate_cit sample_float cit_boundary_example false = Ok r
    /\ calculate_cit sample_float cit_example false = Ok r'
    /\ Cit.cit_rate r <= Cit.cit_rate r'.
Proof.
  apply (calculate_cit_rate_monotone sample_float cit_boundary_example
           cit_example false).
  - vm_compute. reflexivity.
  - vm_compute. reflexivity.
  - vm_compute. discriminate.
Defined.

(** * Further properties of the comparator *)

(** The answer to a request that is not a PIT request and whose turnover and
    profit convert. *)
Lemma calculate_cit_answer (str_to_float : string -> option Q)
    (data : gmap string pyval) (old new : Cit.result) :
  data !! "tax_type" <> Some (PyStr "PIT") ->
  calculate_cit str_to_float data true = Ok old ->
  calculate_cit str_to_float data false = Ok new ->
  calculate str_to_float data
  = Ok (CitResponse old new
          {| CitComparison.tax_difference :=
               Cit.cit_payable new - Cit.cit_payable old;
             CitComparison.net_profit_difference :=
               Cit.net_profit new - Cit.net_profit old;
             CitComparison.monthly_profit_difference :=
               Cit.monthly_net_profit new - Cit.monthly_net_profit old;
             CitComparison.recommendation :=
               recommend (Cit.net_profit new - Cit.net_profit old) |}).
Proof.
  intros Htype Ho Hn. unfold calculate.
  rewrite (not_pit_tax_type _ Htype), Ho, Hn. reflexivity.
Qed.

(** The answer to a PIT request whose nine fields convert. *)
Lemma calculate_pit_answer (str_to_float : string -> option Q)
    (data : gmap string pyval) (old new : Pit.result) :
  data !! "tax_type" = Some (PyStr "PIT") ->
  calculate_pit str_to_float data true = Ok old ->
  calculate_pit str_to_float data false = Ok new ->
  calculate str_to_float data
  = Ok (PitResponse old new
          {| PitComparison.tax_difference :=
               Pit.total_tax new - Pit.total_tax old;
             PitComparison.net_income_difference :=
               Pit.net_income new - Pit.net_income old;
             PitComparison.monthly_take_home_difference :=
               Pit.monthly_take_home new - Pit.monthly_take_home old;
             PitComparison.recommendation :=
               recommend (Pit.net_income new - Pit.net_income old) |}).
Proof.
  intros Htype Ho Hn. unfold calculate.
  rewrite Htype, Ho, Hn. reflexivity.
Qed.

(** X12.  In the CIT comparison the signs go one way: for a profit that is
    not negative the tax difference is not positive and the net-profit and
    monthly differences are not negative; for a profit that is not positive
    it is the other way round and the recommendation is "Better under OLD
    law"; with a turnover of at most 25,000,000 all three differences are 0
    and the recommendation is "Better under OLD law".  So "Better under NEW
    law" is recommended only for a positive profit and a turnover above
    25,000,000. *)
Theorem calculate_cit_comparison (str_to_float : string -> option Q)
    (data : gmap string pyval) :
  data !! "tax_type" <> Some (PyStr "PIT") ->
  readable str_to_float cit_fields data = true ->
  exists old new comparison,
    calculate str_to_float data = Ok (CitResponse old new comparison)
    /\ (0 <= field str_to_float data "profit" ->
        CitComparison.tax_difference comparison <= 0
        /\ 0 <= CitComparison.net_profit_difference comparison
        /\ 0 <= CitComparison.monthly_profit_difference comparison)
    /\ (field str_to_float data "profit" <= 0 ->
        0 <= CitComparison.tax_difference comparison
        /\ CitComparison.net_profit_difference comparison <= 0
        /\ CitComparison.monthly_profit_difference comparison <= 0
        /\ CitComparison.recommendation comparison = "Better under OLD law")
    /\ (field str_to_float data "turnover" <= 25000000 ->
        CitComparison.tax_difference comparison == 0
        /\ CitComparison.net_profit_difference comparison == 0
        /\ CitComparison.monthly_profit_difference comparison == 0
        /\ CitComparison.recommendation comparison = "Better under OLD law")
    /\ (CitComparison.recommendation comparison = "Better under NEW law" ->
        0 < field str_to_float data "profit"
        /\ 25000000 < field str_to_float data "turnover").
Proof.
  intros Htype Hread.
  destruct (calculate_cit_readable str_to_float data true Hread)
    as (ro & rate_o & Hro & _ & _ & _ & Hcit_o & Hnet_o & Hmon_o & Ht_o).
  destruct (calculate_cit_readable str_to_float data false Hread)
    as (rn & rate_n & Hrn & _ & _ & _ & Hcit_n & Hnet_n & Hmon_n & Ht_n).
  eexists ro, rn, _.
  split; [apply (calculate_cit_answer _ _ _ _ Htype Hro Hrn) |].
  cbn [CitComparison.net_profit_difference CitComparison.tax_difference
       CitComparison.monthly_profit_difference CitComparison.recommendation].
  rewrite recommend_new, recommend_old.
  assert (Hmon : Cit.monthly_net_profit rn - Cit.monthly_net_profit ro
                 == (Cit.net_profit rn - Cit.net_profit ro) / 12)
    by (rewrite Hmon_o, Hmon_n; field).
  rewrite Hmon. unfold Qdiv.
  rewrite Hnet_o, Hnet_n, Hcit_o, Hcit_n.
  simpl in Ht_o, Ht_n.
  assert (H12 : / 12 == 1 # 12) by reflexivity.
  rewrite H12.
  destruct Ht_o as [(? & ->) | [(? & ? & ->) | (? & ->)]];
    destruct Ht_n as [(? & ->) | [(? & ? & ->) | (? & ->)]];
    try (exfalso; lra);
    repeat split; try intros; try lra.
Qed.

Lemma calculate_cit_comparison_witness :
  exists old new comparison,
    calculate sample_float cit_loss_medium_example
    = Ok (CitResponse old new comparison)
    /\ CitComparison.recommendation comparison = "Better under OLD law".
Proof.
  destruct (calculate_cit_comparison sample_float cit_loss_medium_example)
    as (old & new & c & Hc & _ & Hloss & _).
  - vm_compute. discriminate.
  - vm_compute. reflexivity.
  - exists old, new, c. split; [exact Hc |].
    apply Hloss. vm_compute. discriminate.
Defined.

(** X13.  In the PIT comparison, whenever the tax difference is not
    negative, that is, the total tax under NEW is not below the one under
    OLD, the net-income and monthly differences are not positive and the
    recommendation is "Better under OLD law".  So "Better under NEW law" is
    recommended only when the total tax under NEW is strictly the lower
    one. *)
Theorem calculate_pit_comparison (str_to_float : string -> option Q)
    (data : gmap string pyval) :
  data !! "tax_type" = Some (PyStr "PIT") ->
  readable str_to_float pit_fields data = true ->
  exists old new comparison,
    calculate str_to_float data = Ok (PitResponse old new comparison)
    /\ (0 <= PitComparison.tax_difference comparison
        <-> Pit.total_tax old <= Pit.total_tax new)
    /\ (0 <= PitComparison.tax_difference comparison ->
        PitComparison.net_income_difference comparison <= 0
        /\ PitComparison.monthly_take_home_difference comparison <= 0
        /\ PitComparison.recommendation comparison = "Better under OLD law")
    /\ (PitComparison.recommendation comparison = "Better under NEW law" ->
        Pit.total_tax new < Pit.total_tax old).
Proof.
  intros Htype Hread.
  destruct (calculate_pit_readable str_to_float data true Hread)
    as (ro & Hro & _ & _ & Hho & Hgo & _ & _ & _ & _ & _ & _ & Hnet_o
        & Hmon_o & _).
  destruct (calculate_pit_readable str_to_float data false Hread)
    as (rn & Hrn & _ & _ & Hhn & Hgn & _ & _ & _ & _ & _ & _ & Hnet_n
        & Hmon_n & _).
  eexists ro, rn, _.
  split; [apply (calculate_pit_answer _ _ _ _ Htype Hro Hrn) |].
  cbn [PitComparison.net_income_difference PitComparison.tax_difference
       PitComparison.monthly_take_home_difference
       PitComparison.recommendation].
  rewrite recommend_new, recommend_old.
  unfold HOUSING_ALLOWANCE_CAP in Hhn.
  assert (Hgross : Pit.gross_income rn <= Pit.gross_income ro).
  { rewrite Hgn, Hgo, Hhn, Hho.
    split_min (field str_to_float data "housing_allowance") 500000; lra. }
  assert (Hmon : Pit.monthly_take_home rn - Pit.monthly_take_home ro
                 == (Pit.net_income rn - Pit.net_income ro) * (1 # 12))
    by (rewrite Hmon_o, Hmon_n; field).
  rewrite Hmon, Hnet_n, Hnet_o.
  repeat split; try intros; lra.
Qed.

Lemma calculate_pit_comparison_witness :
  exists old new comparison,
    calculate sample_float (payload "PIT" pit_form)
    = Ok (PitResponse old new comparison)
    /\ (PitComparison.recommendation comparison = "Better under NEW law" ->
        Pit.total_tax new < Pit.total_tax old).
Proof.
  destruct (calculate_pit_comparison sample_float (payload "PIT" pit_form))
    as (old & new & c & Hc & _ & _ & Hrec).
  - vm_compute. reflexivity.
  - vm_compute. reflexivity.
  - exists old, new, c. split; [exact Hc | exact Hrec].
Defined.

(** The converse does not hold: with a housing allowance of 2,000,000 the
    total tax under NEW is the lower one and yet the recommendation is
    "Better under OLD law", as the NEW net income leaves out the housing
    allowance above the cap. *)
Example pit_capped_housing_comparison :
  exists old new comparison,
    calculate sample_float
      {[ "tax_type" := PyStr "PIT"; "housing_allowance" := PyNum 2000000 ]}
    = Ok (PitResponse old new comparison)
    /\ Pit.total_tax new < Pit.total_tax old
    /\ PitComparison.recommendation comparison = "Better under OLD law".
Proof.
  eexists. eexists. eexists. split; [vm_compute; reflexivity |].
  repeat split.
Qed.

(** X14.  [calculate] answers a PIT request exactly when [calculate_pit]
    returns, with a PIT response whose [old] and [new] carry the labels
    "OLD" and "NEW", and otherwise raises the exception of [calculate_pit];
    likewise every other request with [calculate_cit].  So a PIT request is
    never answered with a CIT response, nor another request with a PIT
    response. *)
Theorem calculate_raises (str_to_float : string -> option Q)
    (data : gmap string pyval) :
  (data !! "tax_type" = Some (PyStr "PIT") ->
   (forall e,
      calculate str_to_float data = Err e
      <-> calculate_pit str_to_float data true = Err e)
   /\ (forall resp,
         calculate str_to_float data = Ok resp ->
         exists old new comparison,
           resp = PitResponse old new comparison
           /\ calculate_pit str_to_float data true = Ok old
           /\ calculate_pit str_to_float data false = Ok new
           /\ Pit.law old = "OLD" /\ Pit.law new = "NEW"))
  /\ (data !! "tax_type" <> Some (PyStr "PIT") ->
      (forall e,
         calculate str_to_float data = Err e
         <-> calculate_cit str_to_float data true = Err e)
      /\ (forall resp,
            calculate str_to_float data = Ok resp ->
            exists old new comparison,
              resp = CitResponse old new comparison
              /\ calculate_cit str_to_float data true = Ok old
              /\ calculate_cit str_to_float data false = Ok new
              /\ Cit.law old = "OLD" /\ Cit.law new = "NEW")).
Proof.
  split; intros Htype.
  - destruct (calculate_pit str_to_float data true) as [ro | eo] eqn:Eo.
    + pose proof (calculate_pit_ok_readable _ _ _ _ Eo) as Hread.
      destruct (calculate_pit_readable str_to_float data true Hread)
        as (ro' & Hro' & Hlaw_o & _).
      destruct (calculate_pit_readable str_to_float data false Hread)
        as (rn & Hrn & Hlaw_n & _).
      assert (ro' = ro) as -> by congruence.
      rewrite (calculate_pit_answer _ _ _ _ Htype Eo Hrn).
      split; [intros e; split; discriminate |].
      intros resp [= <-]. eexists ro, rn, _.
      repeat split; assumption.
    + assert (En : calculate_pit str_to_float data false = Err eo)
        by (apply calculate_pit_error_regime, Eo).
      assert (Ec : calculate str_to_float data = Err eo)
        by (unfold calculate; rewrite Htype, Eo; reflexivity).
      rewrite Ec.
      split; [intros e; split; intros [= <-]; reflexivity | discriminate].
  - destruct (calculate_cit str_to_float data true) as [ro | eo] eqn:Eo.
    + pose proof (calculate_cit_ok_readable _ _ _ _ Eo) as Hread.
      assert (Hlaw_o : Cit.law ro = "OLD").
      { revert Eo. unfold calculate_cit.
        rewrite !(get_float_readable _ cit_fields data _ Hread) by in_fields.
        simpl.
        repeat match goal with
        | |- context [Qle_bool ?x ?y] => destruct (Qle_bool x y)
        end; intros [= <-]; reflexivity. }
      destruct (calculate_cit str_to_float data false) as [rn | en] eqn:En;
        [| apply calculate_cit_error_regime in En; congruence].
      assert (Hlaw_n : Cit.law rn = "NEW").
      { revert En. unfold calculate_cit.
        rewrite !(get_float_readable _ cit_fields data _ Hread) by in_fields.
        simpl.
        repeat match goal with
        | |- context [Qle_bool ?x ?y] => destruct (Qle_bool x y)
        end; intros [= <-]; reflexivity. }
      rewrite (calculate_cit_answer _ _ _ _ Htype Eo En).
      split; [intros e; split; discriminate |].
      intros resp [= <-]. eexists ro, rn, _.
      repeat split; assumption.
    + assert (Ec : calculate str_to_float data = Err eo)
        by (unfold calculate;
            rewrite (not_pit_tax_type _ Htype), Eo; reflexivity).
      rewrite Ec.
      split; [intros e; split; intros [= <-]; reflexivity | discriminate].
Qed.

Lemma calculate_raises_witness :
  calculate sample_float {[ "tax_type" := PyStr "PIT"; "nhf" := PyNone ]}
  = Err TypeError.
Proof.
  destruct (calculate_raises sample_float
              {[ "tax_type" := PyStr "PIT"; "nhf" := PyNone ]})
    as [Hpit _].
  destruct Hpit as [Herr _].
  - vm_compute. reflexivity.
  - apply Herr. vm_compute. reflexivity.
Defined.

(** What an answer of [calculate] is made of. *)
Lemma calculate_ok_inv (str_to_float : string -> option Q)
    (data : gmap string pyval) (resp : response) :
  calculate str_to_float data = Ok resp ->
  (exists old new,
     py_eq_str (default PyNone (data !! "tax_type")) "PIT" = true
     /\ calculate_pit str_to_float data true = Ok old
     /\ calculate_pit str_to_float data false = Ok new
     /\ resp = PitResponse old new
          {| PitComparison.tax_difference :=
               Pit.total_tax new - Pit.total_tax old;
             PitComparison.net_income_difference :=
               Pit.net_income new - Pit.net_income old;
             PitComparison.monthly_take_home_difference :=
               Pit.monthly_take_home new - Pit.monthly_take_home old;
             PitComparison.recommendation :=
               recommend (Pit.net_income new - Pit.net_income old) |})
  \/ (exists old new,
        py_eq_str (default PyNone (data !! "tax_type")) "PIT" = false
        /\ calculate_cit str_to_float data true = Ok old
        /\ calculate_cit str_to_float data false = Ok new
        /\ resp = CitResponse old new
             {| CitComparison.tax_difference :=
                  Cit.cit_payable new - Cit.cit_payable old;
                CitComparison.net_profit_difference :=
                  Cit.net_profit new - Cit.net_profit old;
                CitComparison.monthly_profit_difference :=
                  Cit.monthly_net_profit new - Cit.monthly_net_profit old;
                CitComparison.recommendation :=
                  recommend (Cit.net_profit new - Cit.net_profit old) |}).
Proof.
  unfold calculate.
  destruct (py_eq_str (default PyNone (data !! "tax_type")) "PIT").
  - destruct (calculate_pit str_to_float data true) as [old |];
      [| discriminate].
    destruct (calculate_pit str_to_float data false) as [new |];
      [| discriminate].
    intros [= <-]. left. exists old, new. repeat split.
  - destruct (calculate_cit str_to_float data true) as [old |];
      [| discriminate].
    destruct (calculate_cit str_to_float data false) as [new |];
      [| discriminate].
    intros [= <-]. right. exists old, new. repeat split.
Qed.

(** * The page's script *)

Lemma getColorClass_savings (value : Q) :
  getColorClass value = "savings" <-> 0 < value.
Proof.
  unfold getColorClass.
  destruct (Qgt_bool value 0) eqn:E1, (Qgt_bool 0 value) eqn:E2; bool_to_Q;
    split; intros H; try discriminate H; try reflexivity; try lra.
Qed.

Lemma getColorClass_none (value : Q) :
  getColorClass value = "" <-> value == 0.
Proof.
  unfold getColorClass.
  destruct (Qgt_bool value 0) eqn:E1, (Qgt_bool 0 value) eqn:E2; bool_to_Q;
    split; intros H; try discriminate H; try reflexivity; try lra.
Qed.

Lemma getColorClass_Qeq (x y : Q) :
  x == y -> getColorClass x = getColorClass y.
Proof.
  intros H. unfold getColorClass.
  destruct (Qgt_bool x 0) eqn:E1, (Qgt_bool 0 x) eqn:E2,
           (Qgt_bool y 0) eqn:E3, (Qgt_bool 0 y) eqn:E4; bool_to_Q;
    try reflexivity; exfalso; lra.
Qed.

Lemma recommendation_class_savings (net_difference : Q) :
  recommendation_class net_difference = "savings" <-> 0 < net_difference.
Proof.
  unfold recommendation_class.
  destruct (Qgt_bool net_difference 0) eqn:E; bool_to_Q;
    split; intros H; try discriminate H; try reflexivity; lra.
Qed.

(** X15.  On every answer of [calculate] the page's colours agree with the
    recommendation: the recommendation and the net difference are styled
    "savings" exactly when the recommendation is "Better under NEW law", and
    the tax difference is styled "savings" exactly when the tax under NEW is
    the lower one.  When the net difference is 0 it gets no colour while the
    recommendation is styled "increase".  In a CIT answer the tax difference
    and the net-profit difference always get the same colour. *)
Theorem page_colours (str_to_float : string -> option Q)
    (data : gmap string pyval) (resp : response) :
  calculate str_to_float data = Ok resp ->
  match resp with
  | PitResponse old new c =>
      (recommendation_class (PitComparison.net_income_difference c) = "savings"
       <-> PitComparison.recommendation c = "Better under NEW law")
      /\ (getColorClass (PitComparison.net_income_difference c) = "savings"
          <-> PitComparison.recommendation c = "Better under NEW law")
      /\ (getColorClass (- PitComparison.tax_difference c) = "savings"
          <-> Pit.total_tax new < Pit.total_tax old)
      /\ (PitComparison.net_income_difference c == 0 ->
          getColorClass (PitComparison.net_income_difference c) = ""
          /\ recommendation_class (PitComparison.net_income_difference c)
             = "increase"
          /\ PitComparison.recommendation c = "Better under OLD law")
  | CitResponse old new c =>
      (recommendation_class (CitComparison.net_profit_difference c) = "savings"
       <-> CitComparison.recommendation c = "Better under NEW law")
      /\ (getColorClass (CitComparison.net_profit_difference c) = "savings"
          <-> CitComparison.recommendation c = "Better under NEW law")
      /\ (getColorClass (- CitComparison.tax_difference c) = "savings"
          <-> Cit.cit_payable new < Cit.cit_payable old)
      /\ (CitComparison.net_profit_difference c == 0 ->
          getColorClass (CitComparison.net_profit_difference c) = ""
          /\ recommendation_class (CitComparison.net_profit_difference c)
             = "increase"
          /\ CitComparison.recommendation c = "Better under OLD law")
      /\ getColorClass (- CitComparison.tax_difference c)
         = getColorClass (CitComparison.net_profit_difference c)
  end.
Proof.
  intros Hc.
  destruct (calculate_ok_inv _ _ _ Hc)
    as [(old & new & _ & Ho & Hn & ->) | (old & new & _ & Ho & Hn & ->)];
    cbn [PitComparison.net_income_difference PitComparison.tax_difference
         PitComparison.recommendation
         CitComparison.net_profit_difference CitComparison.tax_difference
         CitComparison.recommendation].
  - rewrite recommendation_class_savings, !getColorClass_savings,
      recommend_new.
    repeat split; try intros; try lra.
    + apply getColorClass_none. assumption.
    + unfold recommendation_class.
      destruct (Qgt_bool _ 0) eqn:E; bool_to_Q; [exfalso; lra | reflexivity].
    + apply recommend_old. lra.
  - rewrite recommendation_class_savings, !getColorClass_savings,
      recommend_new.
    repeat split; try intros; try lra.
    + apply getColorClass_none. assumption.
    + unfold recommendation_class.
      destruct (Qgt_bool _ 0) eqn:E; bool_to_Q; [exfalso; lra | reflexivity].
    + apply recommend_old. lra.
    + apply getColorClass_Qeq.
      pose proof (calculate_cit_ok_readable _ _ _ _ Ho) as Hread.
      destruct (calculate_cit_readable str_to_float data true Hread)
        as (ro & ? & Hro & _ & _ & _ & _ & Hnet_o & _).
      destruct (calculate_cit_readable str_to_float data false Hread)
        as (rn & ? & Hrn & _ & _ & _ & _ & Hnet_n & _).
      assert (ro = old) as -> by congruence.
      assert (rn = new) as -> by congruence.
      rewrite Hnet_o, Hnet_n. lra.
Qed.

Lemma page_colours_witness :
  exists old new c,
    calculate sample_float cit_example = Ok (CitResponse old new c)
    /\ getColorClass (- CitComparison.tax_difference c)
       = getColorClass (CitComparison.net_profit_difference c).
Proof.
  destruct (calculate sample_float cit_example) as [resp |] eqn:E;
    [| vm_compute in E; discriminate E].
  pose proof (page_colours sample_float cit_example resp E) as H.
  destruct resp as [old new c | old new c];
    [vm_compute in E; discriminate E |].
  exists old, new, c. split; [reflexivity |]. apply H.
Defined.

(** The fields of the form that the payload of a tax type carries. *)
Lemma payload_lookup (currentTaxType : string) (value : string -> string)
    (key : string) :
  In key (if decide (currentTaxType = "PIT") then pit_fields else cit_fields) ->
  payload currentTaxType value !! key = Some (or_zero (value key)).
Proof.
  unfold payload. destruct (decide (currentTaxType = "PIT")); simpl;
    intros Hin;
    repeat (destruct Hin as [<- | Hin]; [reflexivity |]);
    contradiction.
Qed.

Lemma payload_tax_type (currentTaxType : string) (value : string -> string) :
  payload currentTaxType value !! "tax_type"
  = Some (PyStr (if decide (currentTaxType = "PIT") then "PIT" else "CIT")).
Proof.
  unfold payload. destruct (decide (currentTaxType = "PIT")); reflexivity.
Qed.

(** How the value of an input converts: an empty input is the number 0, any
    other is read as a string. *)
Lemma py_float_or_zero (str_to_float : string -> option Q) (value : string) :
  py_float str_to_float (or_zero value)
  = if decide (value = "") then Ok 0
    else match str_to_float value with
         | Some q => Ok q
         | None => Err ValueError
         end.
Proof.
  unfold or_zero. destruct (decide (value = "")); reflexivity.
Qed.

(** The exception of a calculator is the exception of one of its fields. *)
Lemma calculate_pit_error_field (str_to_float : string -> option Q)
    (data : gmap string pyval) (use_old_law : bool) (e : pyerr) :
  calculate_pit str_to_float data use_old_law = Err e ->
  exists key, In key pit_fields /\ get_float str_to_float data key = Err e.
Proof.
  unfold calculate_pit.
  repeat match goal with
  | |- context [get_float ?f ?d ?k] =>
      let E := fresh "E" in
      destruct (get_float f d k) eqn:E; simpl;
      [| intros [= <-]; exists k; split; [in_fields | exact E]]
  end.
  destruct use_old_law; discriminate.
Qed.

Lemma calculate_cit_error_field (str_to_float : string -> option Q)
    (data : gmap string pyval) (use_old_law : bool) (e : pyerr) :
  calculate_cit str_to_float data use_old_law = Err e ->
  exists key, In key cit_fields /\ get_float str_to_float data key = Err e.
Proof.
  unfold calculate_cit.
  repeat match goal with
  | |- context [get_float ?f ?d ?k] =>
      let E := fresh "E" in
      destruct (get_float f d k) eqn:E; simpl;
      [| intros [= <-]; exists k; split; [in_fields | exact E]]
  end.
  destruct use_old_law;
    repeat match goal with
    | |- context [Qle_bool ?x ?y] => destruct (Qle_bool x y)
    end; discriminate.
Qed.

(** A request is answered exactly when the fields of its branch convert. *)
Lemma calculate_answered (str_to_float : string -> option Q)
    (data : gmap string pyval) :
  (exists resp, calculate str_to_float data = Ok resp)
  <-> readable str_to_float
        (if py_eq_str (default PyNone (data !! "tax_type")) "PIT"
         then pit_fields else cit_fields) data = true.
Proof.
  split.
  - intros [resp Hc].
    destruct (calculate_ok_inv _ _ _ Hc)
      as [(old & new & -> & Ho & _) | (old & new & -> & Ho & _)].
    + apply (calculate_pit_ok_readable _ _ _ _ Ho).
    + apply (calculate_cit_ok_readable _ _ _ _ Ho).
  - unfold calculate.
    destruct (py_eq_str (default PyNone (data !! "tax_type")) "PIT");
      intros Hread.
    + destruct (calculate_pit_readable str_to_float data true Hread)
        as (ro & -> & _).
      destruct (calculate_pit_readable str_to_float data false Hread)
        as (rn & -> & _).
      eexists. reflexivity.
    + destruct (calculate_cit_readable str_to_float data true Hread)
        as (ro & ? & -> & _).
      destruct (calculate_cit_readable str_to_float data false Hread)
        as (rn & ? & -> & _).
      eexists. reflexivity.
Qed.

(** The exception of [calculate] is the exception of a field of its
    branch. *)
Lemma calculate_error_field (str_to_float : string -> option Q)
    (data : gmap string pyval) (e : pyerr) :
  calculate str_to_float data = Err e ->
  exists key,
    In key (if py_eq_str (default PyNone (data !! "tax_type")) "PIT"
            then pit_fields else cit_fields)
    /\ get_float str_to_float data key = Err e.
Proof.
  unfold calculate.
  destruct (py_eq_str (default PyNone (data !! "tax_type")) "PIT").
  - destruct (calculate_pit str_to_float data true) as [ro | eo] eqn:Eo.
    + destruct (calculate_pit str_to_float data false) as [rn | en] eqn:En;
        [discriminate |].
      intros [= <-]. apply (calculate_pit_error_field _ _ _ _ En).
    + intros [= <-]. apply (calculate_pit_error_field _ _ _ _ Eo).
  - destruct (calculate_cit str_to_float data true) as [ro | eo] eqn:Eo.
    + destruct (calculate_cit str_to_float data false) as [rn | en] eqn:En;
        [discriminate |].
      intros [= <-]. apply (calculate_cit_error_field _ _ _ _ En).
    + intros [= <-]. apply (calculate_cit_error_field _ _ _ _ Eo).
Qed.

Lemma payload_branch (currentTaxType : string) (value : string -> string) :
  (if py_eq_str
        (default PyNone (payload currentTaxType value !! "tax_type")) "PIT"
   then pit_fields else cit_fields)
  = (if decide (currentTaxType = "PIT") then pit_fields else cit_fields).
Proof.
  rewrite payload_tax_type.
  destruct (decide (currentTaxType = "PIT")); reflexivity.
Qed.

(** X16.  The payload the page posts has the tax type "PIT" when the PIT tab
    is the current one and "CIT" otherwise, never another one.  [calculate]
    answers it exactly when every input of the current form is empty or a
    string that [float] reads, with a response of the tab's tax type; an
    empty input counts as 0, and the only exception such a request can
    raise is [ValueError]. *)
Theorem payload_answered (str_to_float : string -> option Q)
    (currentTaxType : string) (value : string -> string) :
  payload currentTaxType value !! "tax_type"
  = Some (PyStr (if decide (currentTaxType = "PIT") then "PIT" else "CIT"))
  /\ ((exists resp,
         calculate str_to_float (payload currentTaxType value) = Ok resp)
      <-> forall id,
            In id (if decide (currentTaxType = "PIT")
                   then pit_fields else cit_fields) ->
            value id = "" \/ exists q, str_to_float (value id) = Some q)
  /\ (forall resp,
        calculate str_to_float (payload currentTaxType value) = Ok resp ->
        match resp with
        | PitResponse _ _ _ => currentTaxType = "PIT"
        | CitResponse _ _ _ => currentTaxType <> "PIT"
        end)
  /\ (forall id,
        In id (if decide (currentTaxType = "PIT")
               then pit_fields else cit_fields) ->
        value id = "" ->
        get_float str_to_float (payload currentTaxType value) id = Ok 0)
  /\ (forall e,
        calculate str_to_float (payload currentTaxType value) = Err e ->
        e = ValueError).
Proof.
  assert (Hget : forall id,
    In id (if decide (currentTaxType = "PIT") then pit_fields else cit_fields) ->
    get_float str_to_float (payload currentTaxType value) id
    = if decide (value id = "") then Ok 0
      else match str_to_float (value id) with
           | Some q => Ok q
           | None => Err ValueError
           end).
  { intros id Hin. unfold get_float.
    rewrite (payload_lookup _ _ _ Hin). apply py_float_or_zero. }
  split; [apply payload_tax_type |]. split; [| split; [| split]].
  - rewrite calculate_answered, payload_branch.
    unfold readable. rewrite forallb_forall.
    split; intros H id Hin; specialize (H id Hin);
      rewrite (Hget id Hin) in *;
      destruct (decide (value id = "")) as [Hempty | Hfull];
      try (left; exact Hempty); try reflexivity.
    + destruct (str_to_float (value id)) as [q |]; [| discriminate H].
      right. exists q. reflexivity.
    + destruct H as [Hempty | [q Hq]]; [contradiction |].
      rewrite Hq. reflexivity.
  - intros resp Hc.
    destruct (calculate_ok_inv _ _ _ Hc)
      as [(old & new & Hpit & _ & _ & ->) | (old & new & Hpit & _ & _ & ->)];
      rewrite payload_tax_type in Hpit;
      destruct (decide (currentTaxType = "PIT")); try assumption;
      discriminate Hpit.
  - intros id Hin Hempty. rewrite (Hget id Hin).
    destruct (decide (value id = "")); [reflexivity | contradiction].
  - intros e Hc.
    destruct (calculate_error_field _ _ _ Hc) as (key & Hin & Hkey).
    rewrite payload_branch in Hin. rewrite (Hget key Hin) in Hkey.
    destruct (decide (value key = "")); [discriminate Hkey |].
    destruct (str_to_float (value key)); [discriminate Hkey |].
    injection Hkey as <-. reflexivity.
Qed.

Lemma payload_answered_witness :
  exists resp, calculate sample_float (payload "PIT" pit_form) = Ok resp.
Proof.
  destruct (payload_answered sample_float "PIT" pit_form) as (_ & Hiff & _).
  apply Hiff. simpl. intros id Hin.
  repeat (destruct Hin as [<- | Hin];
          [first [left; reflexivity | right; eexists; reflexivity] |]).
  contradiction.
Defined.

(** * A raise *)

(** On a valid table a higher amount never pays less tax. *)
Lemma calculate_progressive_tax_mono (table : list bracket) (a b : Q) :
  valid_table table = true -> a <= b ->
  calculate_progressive_tax a table <= calculate_progressive_tax b table.
Proof.
  intros Hv Hab.
  rewrite !calculate_progressive_tax_slices by exact Hv.
  apply positive_slices_mono; [exact Hab | apply valid_table_rates, Hv].
Qed.

(** X17.  A raise never lowers the tax: when the fields of a request convert
    to numbers that are not negative and the basic salary is replaced by a
    higher number, then under either regime the gross income, the taxable
    income, the annual PAYE and the total tax do not fall. *)
Theorem calculate_pit_raise (str_to_float : string -> option Q)
    (data : gmap string pyval) (use_old_law : bool) (basic' : Q) :
  nonnegative str_to_float pit_fields data = true ->
  field str_to_float data "basic_salary" <= basic' ->
  exists r r',
    calculate_pit str_to_float data use_old_law = Ok r
    /\ calculate_pit str_to_float (<["basic_salary" := PyNum basic']> data)
         use_old_law = Ok r'
    /\ Pit.gross_income r <= Pit.gross_income r'
    /\ Pit.taxable_income r <= Pit.taxable_income r'
    /\ Pit.annual_paye r <= Pit.annual_paye r'
    /\ Pit.total_tax r <= Pit.total_tax r'.
Proof.
  intros Hnn Hle.
  pose proof (nonnegative_readable _ _ _ Hnn) as Hread.
  set (data' := <["basic_salary" := PyNum basic']> data).
  assert (Hother : forall key,
            key <> "basic_salary" ->
            get_float str_to_float data' key = get_float str_to_float data key).
  { intros key Hne. unfold get_float, data'.
    rewrite lookup_insert_ne by congruence. reflexivity. }
  assert (Hbasic : get_float str_to_float data' "basic_salary" = Ok basic').
  { unfold get_float, data'. rewrite lookup_insert_eq. reflexivity. }
  assert (Hread' : readable str_to_float pit_fields data' = true).
  { unfold readable in *. rewrite forallb_forall in *. intros key Hin.
    destruct (decide (key = "basic_salary")) as [-> | Hne].
    - rewrite Hbasic. reflexivity.
    - rewrite (Hother key Hne). apply Hread, Hin. }
  assert (Hf : forall key,
            key <> "basic_salary" ->
            field str_to_float data' key = field str_to_float data key).
  { intros key Hne. unfold field. rewrite (Hother key Hne). reflexivity. }
  assert (Hfb : field str_to_float data' "basic_salary" = basic')
    by (unfold field; rewrite Hbasic; reflexivity).
  destruct (calculate_pit_readable str_to_float data use_old_law Hread)
    as (r & Hr & _ & _ & Hh & Hg & Hc & Ht & Hp & _ & Hcgt & Htot & _).
  destruct (calculate_pit_readable str_to_float data' use_old_law Hread')
    as (r' & Hr' & _ & _ & Hh' & Hg' & Hc' & Ht' & Hp' & _ & Hcgt' & Htot'
        & _).
  exists r, r'. split; [exact Hr |]. split; [exact Hr' |].
  rewrite (Hf "housing_allowance") in Hh' by discriminate.
  rewrite Hfb, (Hf "transport_allowance"), (Hf "other_allowances") in Hg'
    by discriminate.
  rewrite (Hf "pension"), (Hf "nhf"), (Hf "life_insurance") in Ht'
    by discriminate.
  rewrite (Hf "capital_gains"), (Hf "digital_assets") in Hcgt'
    by discriminate.
  assert (Ehousing : Pit.housing_allowance_capped r'
                     = Pit.housing_allowance_capped r) by congruence.
  assert (Egross : Pit.gross_income r <= Pit.gross_income r')
    by (rewrite Hg', Hg, Ehousing; lra).
  assert (Ecgt : Pit.capital_gains_tax r' = Pit.capital_gains_tax r)
    by congruence.
  assert (Etax : Pit.taxable_income r <= Pit.taxable_income r').
  { rewrite Ht', Ht, Hc', Hc.
    repeat match goal with
    | |- context [Qmax 0 ?x] => split_max 0 x
    end; destruct use_old_law; lra. }
  assert (Epaye : Pit.annual_paye r <= Pit.annual_paye r').
  { rewrite Hp', Hp. apply calculate_progressive_tax_mono; [| exact Etax].
    destruct use_old_law; reflexivity. }
  rewrite Htot', Htot, Ecgt. repeat split; lra.
Qed.

Lemma calculate_pit_raise_witness :
  exists r r',
    calculate_pit sample_float pit_gains_example false = Ok r
    /\ calculate_pit sample_float
         (<["basic_salary" := PyNum 2500000]> pit_gains_example) false = Ok r'
    /\ Pit.total_tax r <= Pit.total_tax r'.
Proof.
  destruct (calculate_pit_raise sample_float pit_gains_example false 2500000)
    as (r & r' & Hr & Hr' & _ & _ & _ & Htot).
  - vm_compute. reflexivity.
  - vm_compute. discriminate.
  - exists r, r'. repeat split; assumption.
Defined.
